(** * AgriConnect: order totals, cart, checkout and payment status

    A shallow embedding of the parts of the marketplace that carry behaviour:
    the cart reducer (contexts/CartContext), the SQL of the order and payment
    tables with the [update_order_total] trigger, the payment service, the
    product listing read, the checkout submission and the payment screen.

    Conventions.
    - A [DECIMAL(10,2)] column is an integer counting hundredths, so 10.00 is
      [1000]; [INTEGER] columns are integers.
    - A JavaScript [number] is a type with the operations the code uses
      ([JsNumber]); nothing is assumed about them, so what is proved holds for
      IEEE doubles as well as for exact arithmetic.
    - Row identifiers (UUIDs), and all other TEXT, are strings.
    - Toasts, console output and navigation are presentation and are left out.
    - The pages and the payment service talk to the backend through the one
      client of integrations/supabase/client, in the browser: their requests
      run for the visitor, signed in or not, and the row-level security
      policies of the migrations apply to them. Statements that are not a
      request of the client (the item mutations that fire the trigger) are
      run as the database runs them for the owner of the tables. *)

From stdpp Require Import gmap strings list fin_maps pretty.
From Stdlib Require Import ZArith Lia.

Local Open Scope Z_scope.

(** ** JavaScript numbers *)

Class JsNumber (number : Type) := {
  js_zero : number;
  js_one : number;
  js_add : number → number → number;          (* a + b *)
  js_mul : number → number → number;          (* a * b *)
  js_gt : number → number → bool;             (* a > b *)
  js_le : number → number → bool;             (* a <= b *)
  js_truthy : number → bool;                  (* false on 0, -0 and NaN *)
  js_toLocaleString : number → string;
  (* what the backend makes of a JSON number sent to a DECIMAL(10,2) or an
     INTEGER column; [None] when the cast is refused *)
  to_decimal_10_2 : number → option Z;
  to_integer : number → option Z;
}.

(** Largest magnitude a DECIMAL(10,2) holds is 99999999.99. *)
Definition fits_decimal_10_2 (hundredths : Z) : bool :=
  bool_decide (Z.abs hundredths < 10 ^ 10).

(** Exact arithmetic on amounts counted in hundredths (quantities are plain
    integers); the instance the examples run on. *)
#[export] Instance Z_JsNumber : JsNumber Z := {
  js_zero := 0;
  js_one := 1;
  js_add := Z.add;
  js_mul := Z.mul;
  js_gt a b := bool_decide (a > b);
  js_le a b := bool_decide (a ≤ b);
  js_truthy a := negb (bool_decide (a = 0));
  js_toLocaleString a := pretty a;
  to_decimal_10_2 a := if fits_decimal_10_2 a then Some a else None;
  to_integer a := Some a;
}.

(** ** The cart reducer (contexts/CartContext.tsx) *)

Module CartContext.
Section Reducer.
Context {number : Type} `{JsNumber number}.

Record CartItem := {
  id : string;
  productId : string;
  name : string;
  price : number;
  unit_ : string;
  quantity : number;
  image_url : option string;
  vendorId : string;
  vendorName : string;
  maxStock : number;
}.

(** [Omit<CartItem, 'id' | 'quantity'> & { quantity?: number }] *)
Record AddItemPayload := {
  p_productId : string;
  p_name : string;
  p_price : number;
  p_unit : string;
  p_quantity : option number;
  p_image_url : option string;
  p_vendorId : string;
  p_vendorName : string;
  p_maxStock : number;
}.

Record CartState := {
  items : list CartItem;
  total : number;
  itemCount : number;
}.

(** [ADD_ITEM] reads the clock for the new item's id: the reading of
    [Date.now()] travels with the action. *)
Inductive CartAction :=
  | ADD_ITEM (payload : AddItemPayload) (now : N)
  | REMOVE_ITEM (payload : string)
  | UPDATE_QUANTITY (id_ : string) (quantity_ : number)
  | CLEAR_CART
  | LOAD_CART (payload : list CartItem).

(** [items.reduce((sum, item) => sum + (item.price * item.quantity), 0)] *)
Definition reduce_total (l : list CartItem) : number :=
  fold_left (λ sum item, js_add sum (js_mul (price item) (quantity item))) l js_zero.

(** [items.reduce((sum, item) => sum + item.quantity, 0)] *)
Definition reduce_itemCount (l : list CartItem) : number :=
  fold_left (λ sum item, js_add sum (quantity item)) l js_zero.

(** [Array.prototype.findIndex]; [None] stands for -1. *)
Fixpoint findIndex {A} (p : A → bool) (l : list A) : option nat :=
  match l with
  | [] => None
  | x :: l' => if p x then Some 0%nat else S <$> findIndex p l'
  end.

(** [action.payload.quantity || 1] *)
Definition quantity_or_one (q : option number) : number :=
  match q with
  | Some n => if js_truthy n then n else js_one
  | None => js_one
  end.

Definition with_quantity (item : CartItem) (q : number) : CartItem :=
  {| id := id item; productId := productId item; name := name item;
     price := price item; unit_ := unit_ item; quantity := q;
     image_url := image_url item; vendorId := vendorId item;
     vendorName := vendorName item; maxStock := maxStock item |}.

Definition recomputed (newItems : list CartItem) : CartState :=
  {| items := newItems; total := reduce_total newItems;
     itemCount := reduce_itemCount newItems |}.

Definition remove_item (state : CartState) (payload : string) : CartState :=
  recomputed (filter (λ item, id item ≠ payload) (items state)).

Definition cartReducer (state : CartState) (action : CartAction) : CartState :=
  match action with
  | ADD_ITEM payload now =>
      match findIndex (λ item, bool_decide (productId item = p_productId payload))
                      (items state) with
      | Some existingItemIndex =>
          match items state !! existingItemIndex with
          | Some existingItem =>
              let newQuantity :=
                js_add (quantity existingItem) (quantity_or_one (p_quantity payload)) in
              if js_gt newQuantity (p_maxStock payload) then state
              else recomputed
                     (imap (λ index item,
                              if bool_decide (index = existingItemIndex)
                              then with_quantity item newQuantity else item)
                           (items state))
          | None => state (* unreachable: findIndex answers an index of the list *)
          end
      | None =>
          let quantity_ := quantity_or_one (p_quantity payload) in
          if js_gt quantity_ (p_maxStock payload) then state
          else
            let newItem :=
              {| id := p_productId payload +:+ "-" +:+ pretty now;
                 productId := p_productId payload; name := p_name payload;
                 price := p_price payload; unit_ := p_unit payload;
                 quantity := quantity_; image_url := p_image_url payload;
                 vendorId := p_vendorId payload; vendorName := p_vendorName payload;
                 maxStock := p_maxStock payload |} in
            recomputed (items state ++ [newItem])
      end
  | REMOVE_ITEM payload => remove_item state payload
  | UPDATE_QUANTITY id_ quantity_ =>
      if js_le quantity_ js_zero then remove_item state id_
      else recomputed
             (map (λ item,
                     if bool_decide (id item = id_)
                     then (if js_gt quantity_ (maxStock item) then item
                           else with_quantity item quantity_)
                     else item)
                  (items state))
  | CLEAR_CART => {| items := []; total := js_zero; itemCount := js_zero |}
  | LOAD_CART payload => recomputed payload
  end.

(** [useReducer(cartReducer, { items: [], total: 0, itemCount: 0 })] *)
Definition initialState : CartState :=
  {| items := []; total := js_zero; itemCount := js_zero |}.

(** The state after dispatching [actions] in order from the empty cart. *)
Definition dispatched (actions : list CartAction) : CartState :=
  fold_left cartReducer actions initialState.

(** [total] and [itemCount] are what the two reductions give on [items]. *)
Definition cart_consistent (s : CartState) : Prop :=
  total s = reduce_total (items s) ∧ itemCount s = reduce_itemCount (items s).

End Reducer.
Arguments CartItem : clear implicits.
Arguments AddItemPayload : clear implicits.
Arguments CartState : clear implicits.
Arguments CartAction : clear implicits.
End CartContext.

(** ** The database (supabase/migrations) *)

Abbreviation uuid := string (only parsing).
Abbreviation timestamptz := N (only parsing).

Inductive pg_error :=
  | unique_violation
  | foreign_key_violation
  | check_violation
  | not_null_violation
  | numeric_value_out_of_range
  | undefined_table
  | undefined_column (table column : string)  (* the request names a column the table lacks *)
  | duplicate_table
  | infinite_recursion (relation : string)    (* 42P17, raised while policies are expanded *)
  | insufficient_privilege   (* 42501, new row violates row-level security policy *)
  | no_rows                  (* [.single()] on an empty result *)
  | request_failed.          (* the call did not reach or leave the backend *)

Inductive result (A : Type) :=
  | Ok (a : A)
  | Err (e : pg_error).
Arguments Ok {A} a.
Arguments Err {A} e.

(** [s] between double quotes. *)
Definition quoted (s : string) : string :=
  String (Ascii.ascii_of_nat 34) (s +:+ String (Ascii.ascii_of_nat 34) EmptyString).

Definition error_message (e : pg_error) : string :=
  match e with
  | unique_violation => "duplicate key value violates unique constraint"
  | foreign_key_violation => "insert or update violates foreign key constraint"
  | check_violation => "new row violates check constraint"
  | not_null_violation => "null value violates not-null constraint"
  | numeric_value_out_of_range => "numeric field overflow"
  | undefined_table => "relation does not exist"
  | undefined_column table column =>
      "Could not find the '" +:+ column +:+ "' column of '" +:+ table
      +:+ "' in the schema cache"
  | duplicate_table => "relation already exists"
  | infinite_recursion relation =>
      "infinite recursion detected in policy for relation " +:+ quoted relation
  | insufficient_privilege => "new row violates row-level security policy"
  | no_rows => "JSON object requested, multiple (or no) rows returned"
  | request_failed => "Failed to fetch"
  end.

(** *** Table definitions and their CHECK constraints *)

Inductive constraint :=
  | check_in (column : string) (allowed : list string)  (* CHECK (column IN (...)) *)
  | check_positive (column : string)                    (* CHECK (column > 0) *)
  | columns (names : list string).                      (* the columns of the table *)

(** The catalog: for every table that exists, the CHECKs it was created with
    and, for orders and payments, the columns it has. *)
Abbreviation catalog := (gmap string (list constraint)) (only parsing).

(** [CREATE TABLE name (...)] *)
Definition create_table (table : string) (checks : list constraint)
    (c : catalog) : result catalog :=
  match c !! table with
  | Some _ => Err duplicate_table
  | None => Ok (<[table := checks]> c)
  end.

(** [CREATE TABLE IF NOT EXISTS name (...)]: an existing table is left as it is. *)
Definition create_table_if_not_exists (table : string) (checks : list constraint)
    (c : catalog) : catalog :=
  match c !! table with
  | Some _ => c
  | None => <[table := checks]> c
  end.

Definition result_bind {A B} (r : result A) (k : A → result B) : result B :=
  match r with
  | Ok a => k a
  | Err e => Err e
  end.

(** 20250724185430-9fb4b13c-6e5c-407a-b6bf-a5532a850bf5.sql: vendors (l.26),
    products (l.47), orders (l.63), order_items (l.78). *)
Definition order_status_values : list string :=
  ["pending"; "confirmed"; "dispatched"; "in_transit"; "delivered"; "cancelled"].

Definition base_orders_columns : list string :=
  ["id"; "customer_id"; "total_amount"; "delivery_address"; "delivery_fee";
   "status"; "payment_status"; "payment_method"; "notes"; "created_at"; "updated_at"].

Definition base_orders_checks : list constraint :=
  [columns base_orders_columns;
   check_in "status" order_status_values;
   check_in "payment_status" ["pending"; "completed"; "failed"]].

Definition base_reference_tables (c : catalog) : result catalog :=
  result_bind
    (create_table "vendors"
       [check_in "verification_status" ["pending"; "verified"; "rejected"]] c)
    (create_table "products" []).

Definition base_migration (c : catalog) : result catalog :=
  result_bind (base_reference_tables c) (λ c,
  result_bind (create_table "orders" base_orders_checks c)
    (create_table "order_items" [])).

(** 20250124000002_create_orders_and_payments.sql: orders (l.2), order_items
    (l.20), payments (l.31), statement by statement. CREATE TABLE IF NOT EXISTS
    leaves an existing table as it is, and order_items refers to
    [public.products], which only the migration above creates. As one script
    the file runs in neither order: before the base migration the products
    table is missing, and after it the first CREATE POLICY (l.66) names a
    policy, and CREATE TRIGGER update_orders_updated_at (l.208) a trigger,
    that the base migration has created (l.176, l.271). The catalog below is
    what the CREATE TABLE statements leave when each is run on its own. *)
Definition payment_method_values : list string :=
  ["orange_money"; "afrimoney"; "stripe"].

Definition payment_status_values : list string :=
  ["pending"; "completed"; "failed"; "cancelled"].

Definition orders_and_payments_orders_checks : list constraint :=
  [columns (base_orders_columns
            ++ ["customer_name"; "customer_email"; "customer_phone"]);
   check_in "status" order_status_values;
   check_in "payment_status" payment_status_values;
   check_in "payment_method" payment_method_values].

Definition payments_checks : list constraint :=
  [columns ["id"; "order_id"; "payment_method"; "amount"; "currency"; "status";
            "transaction_id"; "customer_name"; "customer_email"; "customer_phone";
            "metadata"; "created_at"; "updated_at"];
   check_in "payment_method" payment_method_values;
   check_in "status" payment_status_values].

Definition orders_and_payments_migration (c : catalog) : catalog :=
  let c1 := create_table_if_not_exists "orders" orders_and_payments_orders_checks c in
  let c2 := match c1 !! "products" with
            | None => c1    (* REFERENCES public.products(id): the statement fails *)
            | Some _ =>
                create_table_if_not_exists "order_items" [check_positive "quantity"] c1
            end in
  create_table_if_not_exists "payments" payments_checks c2.

Definition catalog_of (r : result catalog) : catalog :=
  match r with
  | Ok c => c
  | Err _ => ∅
  end.

(** The catalog once both migrations have run, the first one first. *)
Definition deployed_catalog : catalog :=
  orders_and_payments_migration (catalog_of (base_migration ∅)).

(** The catalog in which the order tables are the ones of
    create_orders_and_payments.sql: that migration run where orders,
    order_items and payments do not exist yet. *)
Definition orders_and_payments_catalog : catalog :=
  orders_and_payments_migration (catalog_of (base_reference_tables ∅)).

(** The value list of [CHECK (column IN (...))] on a column, when it has one. *)
Fixpoint allowed_values_in (column : string) (checks : list constraint)
    : option (list string) :=
  match checks with
  | [] => None
  | check_in col allowed :: rest =>
      if bool_decide (col = column) then Some allowed
      else allowed_values_in column rest
  | _ :: rest => allowed_values_in column rest
  end.

Definition has_check_positive (column : string) (checks : list constraint) : bool :=
  existsb (λ k, match k with
                | check_positive col => bool_decide (col = column)
                | _ => false
                end) checks.

Fixpoint columns_of (checks : list constraint) : option (list string) :=
  match checks with
  | [] => None
  | columns names :: _ => Some names
  | _ :: rest => columns_of rest
  end.

(** What the API answers when a request names the table and sends values for
    the columns [sent]: the table must exist and, where the catalog has its
    columns, have every column named. *)
Definition unknown_column (c : catalog) (table : string) (sent : list string)
    : option pg_error :=
  match c !! table with
  | None => Some undefined_table
  | Some checks =>
      names ← columns_of checks;
      undefined_column table <$> head (filter (λ column, column ∉ names) sent)
  end.

(** A CHECK rejects a row only when its expression is FALSE: NULL, for which
    [IN] is unknown, passes. *)
Definition sql_check_in (v : option string) (allowed : option (list string)) : bool :=
  match v, allowed with
  | Some s, Some l => bool_decide (s ∈ l)
  | _, _ => true
  end.

(** Whether a TEXT value can be stored in [table.column]. *)
Definition column_accepts (c : catalog) (table column : string)
    (v : option string) : bool :=
  match c !! table with
  | None => false
  | Some checks => sql_check_in v (allowed_values_in column checks)
  end.

(** *** Rows

    The columns that some statement below reads or writes; the remaining
    ones (created_at, notes, descriptions, image urls, the customer columns
    of orders, metadata of payments) are carried along by the real tables
    and play no part here. A nullable column is an [option]. *)

Module Vendor.
Record t := {
  user_id : uuid;
  business_name : string;
  location : option string;
  verification_status : option string;
}.
End Vendor.

Module Product.
Record t := {
  vendor_id : uuid;
  category_id : uuid;
  name : string;
  price : Z;
  stock_quantity : Z;
  is_active : option bool;
}.
End Product.

Module Order.
Record t := {
  customer_id : uuid;
  total_amount : Z;
  delivery_address : string;
  delivery_fee : option Z;
  status : option string;
  payment_status : option string;
  payment_method : option string;
  updated_at : timestamptz;
}.
End Order.

Module OrderItem.
Record t := {
  order_id : uuid;
  product_id : uuid;
  quantity : Z;
  unit_price : Z;
  subtotal : Z;
}.
End OrderItem.

Module Payment.
Record t := {
  order_id : uuid;
  payment_method : string;
  amount : Z;
  currency : option string;
  status : option string;
  transaction_id : option string;
  customer_name : string;
  customer_email : string;
  customer_phone : string;
  updated_at : timestamptz;
}.
End Payment.

Record db := {
  schema : gmap string (list constraint);
  admins : list uuid;                         (* user_roles rows with role 'admin' *)
  vendors : gmap uuid Vendor.t;
  products : gmap uuid Product.t;
  orders : gmap uuid Order.t;
  order_items : gmap uuid OrderItem.t;
  payments : gmap uuid Payment.t;
  uuid_seed : N;                              (* what gen_random_uuid() draws from *)
}.

Definition set_orders (d : db) (o : gmap uuid Order.t) : db :=
  {| schema := schema d; admins := admins d; vendors := vendors d;
     products := products d; orders := o; order_items := order_items d;
     payments := payments d; uuid_seed := uuid_seed d |}.

Definition set_order_items (d : db) (i : gmap uuid OrderItem.t) : db :=
  {| schema := schema d; admins := admins d; vendors := vendors d;
     products := products d; orders := orders d; order_items := i;
     payments := payments d; uuid_seed := uuid_seed d |}.

Definition set_payments (d : db) (p : gmap uuid Payment.t) : db :=
  {| schema := schema d; admins := admins d; vendors := vendors d;
     products := products d; orders := orders d; order_items := order_items d;
     payments := p; uuid_seed := uuid_seed d |}.

(** *** The trigger [update_order_total] (create_orders_and_payments.sql l.169) *)

(** [SELECT COALESCE(SUM(subtotal), 0) FROM order_items WHERE order_id = oid] *)
Definition sum_subtotal (oid : uuid) (rows : gmap uuid OrderItem.t) : Z :=
  map_fold (λ _ item acc,
              if bool_decide (OrderItem.order_id item = oid)
              then acc + OrderItem.subtotal item else acc) 0 rows.

(** [COALESCE(NEW.order_id, OLD.order_id)]: NEW is null in a DELETE trigger,
    OLD in an INSERT trigger; [order_id] itself is NOT NULL. *)
Definition coalesce_order_id (NEW OLD : option OrderItem.t) : option uuid :=
  match NEW with
  | Some n => Some (OrderItem.order_id n)
  | None => OrderItem.order_id <$> OLD
  end.

(** The body of the trigger function: one UPDATE of [orders]. [delivery_fee] in
    the subquery is the column of the order being updated; a NULL fee makes the
    new total NULL, which [total_amount NOT NULL] refuses. The BEFORE UPDATE
    trigger on orders stamps the same [now()]. *)
Definition update_order_total (now : timestamptz) (NEW OLD : option OrderItem.t)
    (d : db) : result db :=
  match coalesce_order_id NEW OLD with
  | None => Ok d
  | Some oid =>
      match orders d !! oid with
      | None => Ok d
      | Some o =>
          match Order.delivery_fee o with
          | None => Err not_null_violation
          | Some fee =>
              let total := sum_subtotal oid (order_items d) + fee in
              if fits_decimal_10_2 total then
                Ok (set_orders d
                      (<[oid := {| Order.customer_id := Order.customer_id o;
                                   Order.total_amount := total;
                                   Order.delivery_address := Order.delivery_address o;
                                   Order.delivery_fee := Order.delivery_fee o;
                                   Order.status := Order.status o;
                                   Order.payment_status := Order.payment_status o;
                                   Order.payment_method := Order.payment_method o;
                                   Order.updated_at := now |}]> (orders d)))
              else Err numeric_value_out_of_range
          end
      end
  end.

(** Constraints of an order_items row: both foreign keys and, where the table
    was created with it, [CHECK (quantity > 0)]. *)
Definition order_item_violation (row : OrderItem.t) (d : db) : option pg_error :=
  if bool_decide (orders d !! OrderItem.order_id row = None)
  then Some foreign_key_violation
  else if bool_decide (products d !! OrderItem.product_id row = None)
  then Some foreign_key_violation
  else if has_check_positive "quantity" (default [] (schema d !! "order_items"))
          && bool_decide (OrderItem.quantity row ≤ 0)
  then Some check_violation
  else None.

(** [INSERT INTO order_items], one row, with its AFTER INSERT trigger. *)
Definition insert_order_item (now : timestamptz) (id : uuid) (row : OrderItem.t)
    (d : db) : result db :=
  match order_items d !! id with
  | Some _ => Err unique_violation
  | None =>
      match order_item_violation row d with
      | Some e => Err e
      | None =>
          update_order_total now (Some row) None
            (set_order_items d (<[id := row]> (order_items d)))
      end
  end.

(** [UPDATE order_items SET ... WHERE id = id], with its AFTER UPDATE trigger;
    no row with that id means no row is updated and no trigger fires. *)
Definition update_order_item (now : timestamptz) (id : uuid) (row : OrderItem.t)
    (d : db) : result db :=
  match order_items d !! id with
  | None => Ok d
  | Some old =>
      match order_item_violation row d with
      | Some e => Err e
      | None =>
          update_order_total now (Some row) (Some old)
            (set_order_items d (<[id := row]> (order_items d)))
      end
  end.

(** [DELETE FROM order_items WHERE id = id], with its AFTER DELETE trigger. *)
Definition delete_order_item (now : timestamptz) (id : uuid) (d : db) : result db :=
  match order_items d !! id with
  | None => Ok d
  | Some old =>
      update_order_total now None (Some old)
        (set_order_items d (delete id (order_items d)))
  end.

(** The three statements above are the item mutations as the database runs
    them for the owner of the tables, whom row security does not apply to;
    the checkout's insert, a request of the client, is [insert_order_items]
    below. *)
Inductive item_mutation :=
  | InsertItem (id : uuid) (row : OrderItem.t)
  | UpdateItem (id : uuid) (row : OrderItem.t)
  | DeleteItem (id : uuid).

Definition mutate (now : timestamptz) (m : item_mutation) (d : db) : result db :=
  match m with
  | InsertItem id row => insert_order_item now id row d
  | UpdateItem id row => update_order_item now id row d
  | DeleteItem id => delete_order_item now id d
  end.

(** A failed statement is rolled back: the database stays as it was. *)
Definition commit (d : db) (r : result db) : db :=
  match r with
  | Ok d' => d'
  | Err _ => d
  end.

Definition mutate_all (now : timestamptz) (ms : list item_mutation) (d : db) : db :=
  fold_left (λ d m, commit d (mutate now m d)) ms d.

(** *** Row-level security on vendors

    SELECT on vendors is open to everyone for verified vendors, to a vendor
    for their own row and to admins (base migration l.135-145). SELECT on
    products is open to everyone for active products (l.157). *)
Definition has_role_admin (viewer : option uuid) (d : db) : bool :=
  match viewer with
  | Some u => bool_decide (u ∈ admins d)
  | None => false
  end.

Definition vendor_visible (viewer : option uuid) (d : db) (v : Vendor.t) : bool :=
  bool_decide (Vendor.verification_status v = Some "verified")
  || bool_decide (viewer = Some (Vendor.user_id v))
  || has_role_admin viewer d.

(** A product row with the embedded [vendors (business_name, location)]: the
    vendor the foreign key points to, when the viewer may read it. *)
Record product_with_vendor := {
  pv_id : uuid;
  pv_product : Product.t;
  pv_vendors : option (string * option string);
}.

Definition embed_vendor (viewer : option uuid) (d : db)
    (row : uuid * Product.t) : product_with_vendor :=
  {| pv_id := row.1;
     pv_product := row.2;
     pv_vendors :=
       match vendors d !! Product.vendor_id row.2 with
       | Some v =>
           if vendor_visible viewer d v
           then Some (Vendor.business_name v, Vendor.location v)
           else None
       | None => None
       end |}.

(** [from('products').select('*, categories (name), vendors (business_name,
    location)').eq('is_active', true)], with [.not('vendors', 'is', null)]
    when [vendors_not_null] is set. *)
Definition select_active_products (vendors_not_null : bool) (viewer : option uuid)
    (d : db) : result (list product_with_vendor * db) :=
  let active :=
    filter (λ row : uuid * Product.t, Product.is_active row.2 = Some true)
           (map_to_list (products d)) in
  let embedded := embed_vendor viewer d <$> active in
  Ok (if vendors_not_null
      then filter (λ p, pv_vendors p ≠ None) embedded
      else embedded, d).

(** *** Row-level security on orders, order_items and payments

    Both migration files enable row-level security on the tables they create
    (base l.94-95, create_orders_and_payments.sql l.61-63) and grant access by
    policies. Of a policy the rewriter of PostgreSQL needs to know the table,
    the command and the tables the sub-selects of its expression read:
    [has_role] is a SECURITY DEFINER function and not a sub-select. The two
    smaller migration files add policies of these shapes and drop none of the
    policies of orders, order_items and payments. *)

Inductive command := SELECT | INSERT | UPDATE | DELETE.

Definition same_command (a b : command) : bool :=
  match a, b with
  | SELECT, SELECT | INSERT, INSERT | UPDATE, UPDATE | DELETE, DELETE => true
  | _, _ => false
  end.

Record policy := {
  policy_table : string;
  policy_name : string;
  policy_for : option command;        (* [None]: FOR ALL *)
  policy_reads : list string;
}.

Definition on (table name : string) (for_ : option command) (reads : list string)
    : policy :=
  {| policy_table := table; policy_name := name; policy_for := for_;
     policy_reads := reads |}.

(** Base migration, l.135-244. *)
Definition base_policies : list policy :=
  [on "vendors" "Vendors can manage their own vendor profile" None [];
   on "vendors" "Everyone can view verified vendors" (Some SELECT) [];
   on "vendors" "Admins can manage all vendors" None [];
   on "products" "Everyone can view active products" (Some SELECT) [];
   on "products" "Vendors can manage their own products" None ["vendors"];
   on "products" "Admins can manage all products" None [];
   on "orders" "Customers can view their own orders" (Some SELECT) [];
   on "orders" "Customers can create their own orders" (Some INSERT) [];
   on "orders" "Customers can update their own pending orders" (Some UPDATE) [];
   on "orders" "Vendors can view orders containing their products" (Some SELECT)
      ["order_items"; "products"; "vendors"];
   on "orders" "Vendors can update orders containing their products" (Some UPDATE)
      ["order_items"; "products"; "vendors"];
   on "orders" "Admins can manage all orders" None [];
   on "order_items" "Users can view order items for orders they can see" (Some SELECT)
      ["orders"; "products"; "vendors"];
   on "order_items" "Customers can insert order items for their orders" (Some INSERT)
      ["orders"]].

(** create_orders_and_payments.sql, l.66-166. *)
Definition orders_and_payments_policies : list policy :=
  [on "orders" "Customers can view their own orders" (Some SELECT) [];
   on "orders" "Customers can create their own orders" (Some INSERT) [];
   on "orders" "Customers can update their own orders" (Some UPDATE) [];
   on "orders" "Vendors can view orders for their products" (Some SELECT)
      ["order_items"; "products"; "vendors"];
   on "orders" "Vendors can update orders for their products" (Some UPDATE)
      ["order_items"; "products"; "vendors"];
   on "orders" "Admins can manage all orders" None [];
   on "order_items" "Users can view order items for their orders" (Some SELECT)
      ["orders"; "products"; "vendors"];
   on "order_items" "Customers can create order items for their orders" (Some INSERT)
      ["orders"];
   on "order_items" "Admins can manage all order items" None [];
   on "payments" "Users can view payments for their orders" (Some SELECT) ["orders"];
   on "payments" "Users can create payments for their orders" (Some INSERT) ["orders"];
   on "payments" "System can update payment status" (Some UPDATE) [];
   on "payments" "Admins can manage all payments" None []].

(** [CREATE POLICY]: refused when the table has a policy of that name. *)
Definition create_policy (existing : list policy) (p : policy) : list policy :=
  if existsb (λ q, bool_decide (policy_table q = policy_table p
                                ∧ policy_name q = policy_name p)) existing
  then existing
  else existing ++ [p].

(** The policies once the statements of both files have been run. No code of
    the repository creates or drops a policy of these tables afterwards. *)
Definition policies : list policy :=
  fold_left create_policy (base_policies ++ orders_and_payments_policies) [].

Definition applies_to (cmd : command) (p : policy) : bool :=
  match policy_for p with
  | None => true
  | Some c => same_command c cmd
  end.

(** The policies added to a statement on [table] that needs the rights
    [cmds]: INSERT ... RETURNING and UPDATE ... WHERE need SELECT as well. *)
Definition policies_for (table : string) (cmds : list command) : list policy :=
  filter (λ p, policy_table p = table ∧ existsb (λ cmd, applies_to cmd p) cmds = true)
         policies.

(** The expansion of the policies into a statement. A table whose policies
    have sub-selects stays on the stack while these are expanded, each table
    they read with its SELECT policies; coming back to a table on the stack
    is the error 42P17, whoever asks and whatever the rows are. The stack
    cannot grow beyond the tables that have policies, which bounds [fuel]. *)
Fixpoint expand_policies (fuel : nat) (stack : list string) (table : string)
    (cmds : list command) {struct fuel} : result () :=
  match policies_for table cmds ≫= policy_reads with
  | [] => Ok ()
  | reads =>
      if bool_decide (table ∈ stack) then Err (infinite_recursion table)
      else
        match fuel with
        | O => Err (infinite_recursion table)
        | S fuel' =>
            foldr (λ read rest,
                     result_bind (expand_policies fuel' (table :: stack) read [SELECT])
                                 (λ _, rest))
                  (Ok ()) reads
        end
  end.

Definition row_security (table : string) (cmds : list command) : result () :=
  expand_policies (length policies) [] table cmds.

(** The expressions of the policies, for a statement whose expansion goes
    through. [auth.uid() = customer_id]: *)
Definition is_customer (viewer : option uuid) (o : Order.t) : bool :=
  bool_decide (viewer = Some (Order.customer_id o)).

(** [EXISTS (SELECT 1 FROM order_items oi JOIN products p ON ... JOIN vendors v
    ON ... WHERE oi.order_id = orders.id AND v.user_id = auth.uid())] *)
Definition sells_into (viewer : option uuid) (d : db) (oid : uuid) : bool :=
  existsb (λ row : uuid * OrderItem.t,
             bool_decide (OrderItem.order_id row.2 = oid)
             && match products d !! OrderItem.product_id row.2 with
                | Some p =>
                    match vendors d !! Product.vendor_id p with
                    | Some v => bool_decide (viewer = Some (Vendor.user_id v))
                    | None => false
                    end
                | None => false
                end)
          (map_to_list (order_items d)).

Definition order_visible (viewer : option uuid) (d : db) (oid : uuid) (o : Order.t)
    : bool :=
  is_customer viewer o || sells_into viewer d oid || has_role_admin viewer d.

(** [EXISTS (SELECT 1 FROM orders o WHERE o.id = order_id AND o.customer_id =
    auth.uid())], of payments and of order_items. *)
Definition owns_order (viewer : option uuid) (d : db) (oid : uuid) : bool :=
  match orders d !! oid with
  | Some o => is_customer viewer o
  | None => false
  end.

Definition payment_visible (viewer : option uuid) (d : db) (p : Payment.t) : bool :=
  owns_order viewer d (Payment.order_id p) || has_role_admin viewer d.

(** *** The statements the client sends for orders and payments

    Each is refused when it names a column the table lacks or when the
    expansion of the policies fails; otherwise it runs on the rows the
    policies let the caller [viewer] see and write. *)

(** [gen_random_uuid()], the DEFAULT of every [id] column. *)
Definition gen_random_uuid (d : db) : uuid * db :=
  (pretty (uuid_seed d),
   {| schema := schema d; admins := admins d; vendors := vendors d;
      products := products d; orders := orders d; order_items := order_items d;
      payments := payments d; uuid_seed := N.succ (uuid_seed d) |}).

(** The statement [stmt] behind the checks every request on [table] passes. *)
Definition guarded {A} (table : string) (sent : list string) (cmds : list command)
    (d : db) (stmt : result A) : result A :=
  match unknown_column (schema d) table sent with
  | Some e => Err e
  | None =>
      match row_security table cmds with
      | Err e => Err e
      | Ok _ => stmt
      end
  end.

(** [from('payments').insert([{...}]).select().single()]:
    INSERT INTO payments (...) RETURNING *. *)
Definition insert_payment (viewer : option uuid) (row : Payment.t) (d : db)
    : result (uuid * Payment.t * db) :=
  guarded "payments"
    ["order_id"; "payment_method"; "amount"; "currency"; "status"; "customer_name";
     "customer_email"; "customer_phone"; "metadata"]
    [INSERT; SELECT] d
    (let '(id, d1) := gen_random_uuid d in
     if negb (payment_visible viewer d row) then Err insufficient_privilege
     else if bool_decide (is_Some (payments d !! id)) then Err unique_violation
     else if bool_decide (orders d !! Payment.order_id row = None)
     then Err foreign_key_violation
     else if column_accepts (schema d) "payments" "payment_method"
               (Some (Payment.payment_method row))
             && column_accepts (schema d) "payments" "status" (Payment.status row)
     then Ok (id, row, set_payments d1 (<[id := row]> (payments d)))
     else Err check_violation).

Definition with_status (p : Payment.t) (now : timestamptz) (new_status : string)
    (new_transaction_id : option string) : Payment.t :=
  {| Payment.order_id := Payment.order_id p;
     Payment.payment_method := Payment.payment_method p;
     Payment.amount := Payment.amount p;
     Payment.currency := Payment.currency p;
     Payment.status := Some new_status;
     Payment.transaction_id :=
       match new_transaction_id with
       | Some t => Some t
       | None => Payment.transaction_id p
       end;
     Payment.customer_name := Payment.customer_name p;
     Payment.customer_email := Payment.customer_email p;
     Payment.customer_phone := Payment.customer_phone p;
     Payment.updated_at := now |}.

(** [from('payments').update({status, updated_at [, transaction_id]})
    .eq('id', id)]: UPDATE payments SET ... WHERE id = id. The WHERE clause
    reads the table, so the SELECT policies are added to the UPDATE policies;
    a row that is missing or hidden is no error, no row is updated. *)
Definition update_payment (now : timestamptz) (viewer : option uuid) (id : uuid)
    (new_status : string) (new_transaction_id : option string) (d : db)
    : result (() * db) :=
  guarded "payments" ["status"; "updated_at"; "transaction_id"] [UPDATE; SELECT] d
    (match payments d !! id with
     | None => Ok ((), d)
     | Some p =>
         if negb (payment_visible viewer d p) then Ok ((), d)
         else if column_accepts (schema d) "payments" "status" (Some new_status) then
           Ok ((), set_payments d
                     (<[id := with_status p now new_status new_transaction_id]>
                        (payments d)))
         else Err check_violation
     end).

(** [from('payments').select(...).eq('id', id).single()] *)
Definition select_payment (viewer : option uuid) (id : uuid) (d : db)
    : result (Payment.t * db) :=
  guarded "payments" [] [SELECT] d
    (match payments d !! id with
     | Some p => if payment_visible viewer d p then Ok (p, d) else Err no_rows
     | None => Err no_rows
     end).

Definition with_payment_status (o : Order.t) (now : timestamptz)
    (new_status : string) : Order.t :=
  {| Order.customer_id := Order.customer_id o;
     Order.total_amount := Order.total_amount o;
     Order.delivery_address := Order.delivery_address o;
     Order.delivery_fee := Order.delivery_fee o;
     Order.status := Order.status o;
     Order.payment_status := Some new_status;
     Order.payment_method := Order.payment_method o;
     Order.updated_at := now |}.

(** [from('orders').update({payment_status, updated_at}).eq('id', id)] *)
Definition update_order_payment_status (now : timestamptz) (viewer : option uuid)
    (id : uuid) (new_status : string) (d : db) : result (() * db) :=
  guarded "orders" ["payment_status"; "updated_at"] [UPDATE; SELECT] d
    (match orders d !! id with
     | None => Ok ((), d)
     | Some o =>
         if negb (order_visible viewer d id o) then Ok ((), d)
         else if column_accepts (schema d) "orders" "payment_status" (Some new_status)
         then Ok ((), set_orders d
                        (<[id := with_payment_status o now new_status]> (orders d)))
         else Err check_violation
     end).

(** [from('orders').insert([orderData]).select().single()], with the columns
    [orderData] names (Checkout.tsx l.427-439). *)
Definition insert_order (viewer : option uuid) (row : Order.t) (d : db)
    : result (uuid * db) :=
  guarded "orders"
    ["customer_id"; "total_amount"; "delivery_address"; "delivery_fee"; "status";
     "payment_status"; "payment_method"; "notes"; "customer_name"; "customer_email";
     "customer_phone"]
    [INSERT; SELECT] d
    (let '(id, d1) := gen_random_uuid d in
     if negb (is_customer viewer row || has_role_admin viewer d)
     then Err insufficient_privilege
     else if bool_decide (is_Some (orders d !! id)) then Err unique_violation
     else if column_accepts (schema d) "orders" "status" (Order.status row)
             && column_accepts (schema d) "orders" "payment_status"
                  (Order.payment_status row)
             && column_accepts (schema d) "orders" "payment_method"
                  (Order.payment_method row)
     then Ok (id, set_orders d1 (<[id := row]> (orders d)))
     else Err check_violation).

(** [from('order_items').insert(orderItems)]: several rows in one statement,
    without RETURNING. The rows go in first, each with a fresh id, under the
    INSERT policy and the constraints of the table; the AFTER INSERT trigger
    then fires once for every row, on the table that holds them all. Any
    failure aborts the statement. *)
Fixpoint store_order_items (viewer : option uuid) (rows : list OrderItem.t) (d : db)
    : result (list uuid * db) :=
  match rows with
  | [] => Ok ([], d)
  | row :: rest =>
      let '(id, d1) := gen_random_uuid d in
      if negb (owns_order viewer d1 (OrderItem.order_id row) || has_role_admin viewer d1)
      then Err insufficient_privilege
      else
        match order_items d1 !! id, order_item_violation row d1 with
        | Some _, _ => Err unique_violation
        | None, Some e => Err e
        | None, None =>
            match store_order_items viewer rest
                    (set_order_items d1 (<[id := row]> (order_items d1))) with
            | Err e => Err e
            | Ok (ids, d2) => Ok (id :: ids, d2)
            end
        end
  end.

Fixpoint fire_insert_triggers (now : timestamptz) (rows : list OrderItem.t)
    (d : db) : result db :=
  match rows with
  | [] => Ok d
  | row :: rest =>
      result_bind (update_order_total now (Some row) None d)
                  (fire_insert_triggers now rest)
  end.

Definition insert_order_items (now : timestamptz) (viewer : option uuid)
    (rows : list OrderItem.t) (d : db) : result (list uuid * db) :=
  guarded "order_items" ["order_id"; "product_id"; "quantity"; "unit_price"; "subtotal"]
    [INSERT] d
    (match store_order_items viewer rows d with
     | Err e => Err e
     | Ok (ids, d1) =>
         match fire_insert_triggers now rows d1 with
         | Err e => Err e
         | Ok d2 => Ok (ids, d2)
         end
     end).

(** ** The backend as the client sees it (integrations/supabase/client) *)

Module Supabase.

(** Modelled from the spec: the module integrations/supabase/client, which
    makes the client, is not among the sources. The specification has the
    pages reach the hosted backend through its generated client, under
    row-level authorization: a request runs for the visitor, [session] being
    the user who is signed in ([auth.uid()]), and the policies apply to it.

    The world a call runs in. [faults] scripts the coming requests: the n-th
    entry tells whether the n-th request fails before it reaches the database;
    past the end of the script no request fails. *)
Record World := {
  database : db;
  faults : list bool;
  clock : N;                 (* Date.now() and now(); read, never advanced *)
  session : option uuid;     (* auth.uid() *)
}.

Definition M (A : Type) : Type := World → A * World.

#[export] Instance M_ret : MRet M := λ A a w, (a, w).
#[export] Instance M_bind : MBind M :=
  λ A B k m w, let '(a, w') := m w in k a w'.

Definition Date_now : M N := λ w, (clock w, w).

(** The world once a request has been answered: the entry of the fault script
    is used up and the database is [d]. *)
Definition answered (w : World) (d : db) : World :=
  {| database := d; faults := tail (faults w);
     clock := clock w; session := session w |}.

(** One request: it takes the next entry of the fault script, then runs the
    statement; a statement that fails leaves the database as it was. *)
Definition request {A} (stmt : timestamptz → option uuid → db → result (A * db))
    : M (result A) :=
  λ w,
    match faults w with
    | true :: _ => (Err request_failed, answered w (database w))
    | _ =>
        match stmt (clock w) (session w) (database w) with
        | Ok (a, d') => (Ok a, answered w d')
        | Err e => (Err e, answered w (database w))
        end
    end.

End Supabase.

(** ** The payment service (services/paymentService.ts) *)

Module PaymentService.
Import Supabase.
Section Service.
Context {number : Type} `{JsNumber number}.

Record CustomerInfo := {
  name : string;
  email : string;
  phone : string;
}.

Record PaymentRequest := {
  orderId : string;
  amount : number;
  currency : string;
  paymentMethod : string;
  customerInfo : CustomerInfo;
}.

Record PaymentResponse := {
  success : bool;
  paymentId : option string;
  redirectUrl : option string;
  r_message : string;
  error : option string;
}.

Record PaymentStatus := {
  status : option string;
  transactionId : option string;
  message : string;
  updatedAt : N;
}.

(** ['pending' | 'completed' | 'failed' | 'cancelled'] *)
Inductive StatusArg := pending | completed | failed | cancelled.

Definition status_text (s : StatusArg) : string :=
  match s with
  | pending => "pending"
  | completed => "completed"
  | failed => "failed"
  | cancelled => "cancelled"
  end.

(** The row the three [process...Payment] methods insert; the amount is cast
    to the column type by the backend. *)
Definition payment_row (request : PaymentRequest) (method : string)
    (now : timestamptz) : option Payment.t :=
  a ← to_decimal_10_2 (amount request);
  Some {| Payment.order_id := orderId request;
          Payment.payment_method := method;
          Payment.amount := a;
          Payment.currency := Some (currency request);
          Payment.status := Some "pending";
          Payment.transaction_id := None;
          Payment.customer_name := name (customerInfo request);
          Payment.customer_email := email (customerInfo request);
          Payment.customer_phone := phone (customerInfo request);
          Payment.updated_at := now |}.

(** [supabase.from('payments').insert([...]).select().single()] *)
Definition insert_payment_single (request : PaymentRequest) (method : string)
    : M (result (uuid * Payment.t)) :=
  Supabase.request (λ now viewer d,
    match payment_row request method now with
    | None => Err numeric_value_out_of_range
    | Some row =>
        match insert_payment viewer row d with
        | Ok (id, r, d') => Ok ((id, r), d')
        | Err e => Err e
        end
    end).

(** [updateOrderPaymentStatus]: the error of the update is caught and logged. *)
Definition updateOrderPaymentStatus (orderId_ : string) (paymentStatus : StatusArg)
    : M () :=
  _ ← Supabase.request (λ now viewer d,
         update_order_payment_status now viewer orderId_ (status_text paymentStatus) d);
  mret ().

Definition failure (e : pg_error) (msg : string) : PaymentResponse :=
  {| success := false; paymentId := None; redirectUrl := None;
     r_message := msg; error := Some (error_message e) |}.

Definition processOrangeMoneyPayment (request : PaymentRequest) : M PaymentResponse :=
  r ← insert_payment_single request "orange_money";
  match r with
  | Err e => mret (failure e "Failed to initiate Orange Money payment")
  | Ok (id, _) =>
      _ ← updateOrderPaymentStatus (orderId request) pending;
      mret {| success := true; paymentId := Some id; redirectUrl := None;
              r_message :=
                "Orange Money payment initiated. Please dial *144*"
                +:+ phone (customerInfo request)
                +:+ "# to complete payment of Le "
                +:+ js_toLocaleString (amount request);
              error := None |}
  end.

Definition processAfriMoneyPayment (request : PaymentRequest) : M PaymentResponse :=
  r ← insert_payment_single request "afrimoney";
  match r with
  | Err e => mret (failure e "Failed to initiate AfriMoney payment")
  | Ok (id, _) =>
      _ ← updateOrderPaymentStatus (orderId request) pending;
      mret {| success := true; paymentId := Some id; redirectUrl := None;
              r_message :=
                "AfriMoney payment initiated. Please check your phone for payment instructions.";
              error := None |}
  end.

Definition processStripePayment (request : PaymentRequest) : M PaymentResponse :=
  r ← insert_payment_single request "stripe";
  match r with
  | Err e => mret (failure e "Failed to initiate Stripe payment")
  | Ok (id, _) =>
      _ ← updateOrderPaymentStatus (orderId request) pending;
      mret {| success := true; paymentId := Some id;
              redirectUrl := Some ("/payment/stripe/" +:+ id);
              r_message := "Redirecting to Stripe checkout...";
              error := None |}
  end.

Definition processPayment (request : PaymentRequest) : M PaymentResponse :=
  if bool_decide (paymentMethod request = "orange_money")
  then processOrangeMoneyPayment request
  else if bool_decide (paymentMethod request = "afrimoney")
  then processAfriMoneyPayment request
  else if bool_decide (paymentMethod request = "stripe")
  then processStripePayment request
  else mret {| success := false; paymentId := None; redirectUrl := None;
               r_message := "The selected payment method is not supported";
               error := Some "Invalid payment method" |}.

(** [messages[status] || 'Unknown status'], for the statuses the CHECK on
    payments.status admits and for NULL. (For a string that names a property
    every object inherits, such as 'constructor', the lookup would give that
    property and not a message; the CHECK admits no such status.) *)
Definition getStatusMessage (s : option string) : string :=
  match s with
  | Some "pending" => "Payment is being processed"
  | Some "completed" => "Payment completed successfully"
  | Some "failed" => "Payment failed"
  | Some "cancelled" => "Payment was cancelled"
  | _ => "Unknown status"
  end.

(** What the [try] block of [checkPaymentStatus] returns for the row it has
    read (l.709-714). *)
Definition status_of_row (payment : Payment.t) : PaymentStatus :=
  {| status := Payment.status payment;
     transactionId := Payment.transaction_id payment;
     message := getStatusMessage (Payment.status payment);
     updatedAt := Payment.updated_at payment |}.

Definition checkPaymentStatus (paymentId_ : string) : M PaymentStatus :=
  r ← Supabase.request (λ _ viewer d, select_payment viewer paymentId_ d);
  match r with
  | Ok payment => mret (status_of_row payment)
  | Err _ =>
      now ← Date_now;
      mret {| status := Some "failed"; transactionId := None;
              message := "Failed to check payment status";
              updatedAt := now |}
  end.

(** [if (transactionId)]: undefined and the empty string are falsy. *)
Definition truthy_string (s : option string) : option string :=
  match s with
  | Some "" => None
  | other => other
  end.

Definition updatePaymentStatus (paymentId_ : string) (status_ : StatusArg)
    (transactionId_ : option string) : M bool :=
  r ← Supabase.request (λ now viewer d,
         update_payment now viewer paymentId_ (status_text status_)
           (truthy_string transactionId_) d);
  match r with
  | Err _ => mret false
  | Ok _ =>
      read ← Supabase.request (λ _ viewer d, select_payment viewer paymentId_ d);
      match read with
      | Ok payment =>
          _ ← updateOrderPaymentStatus (Payment.order_id payment) status_;
          mret true
      | Err _ => mret true
      end
  end.

Definition simulatePaymentCompletion (paymentId_ : string) (success_ : bool)
    : M bool :=
  now ← Date_now;
  updatePaymentStatus paymentId_
    (if success_ then completed else failed)
    (if success_ then Some ("txn_" +:+ pretty now) else None).

(** The operations the service offers, for talking about what any sequence of
    them can do. *)
Inductive operation :=
  | ProcessPayment (request : PaymentRequest)
  | CheckPaymentStatus (paymentId_ : string)
  | UpdatePaymentStatus (paymentId_ : string) (status_ : StatusArg)
      (transactionId_ : option string)
  | SimulatePaymentCompletion (paymentId_ : string) (success_ : bool).

Definition run (op : operation) (w : World) : World :=
  match op with
  | ProcessPayment request => (processPayment request w).2
  | CheckPaymentStatus id => (checkPaymentStatus id w).2
  | UpdatePaymentStatus id s t => (updatePaymentStatus id s t w).2
  | SimulatePaymentCompletion id b => (simulatePaymentCompletion id b w).2
  end.

Definition run_all (ops : list operation) (w : World) : World :=
  fold_left (λ w op, run op w) ops w.

End Service.
Arguments PaymentRequest : clear implicits.
Arguments operation : clear implicits.
End PaymentService.

Definition terminal (s : option string) : bool :=
  bool_decide (s = Some "completed")
  || bool_decide (s = Some "failed")
  || bool_decide (s = Some "cancelled").

(** ** The product listing (pages/Products.tsx) *)

Module Products.
Import Supabase.

(** [fetchProducts]: the list handed to [setProducts]. *)
Definition fetchProducts : M (list product_with_vendor) :=
  r ← Supabase.request (λ _ viewer d, select_active_products true viewer d);
  match r with
  | Ok data =>
      (* filter out products that still have null vendors *)
      mret (filter (λ product, pv_vendors product ≠ None) data)
  | Err _ =>
      (* a simpler query without vendor filtering *)
      fallback ← Supabase.request (λ _ viewer d, select_active_products false viewer d);
      match fallback with
      | Ok fallbackData => mret fallbackData
      | Err _ => mret []
      end
  end.

End Products.

(** ** Checkout (pages/Checkout.tsx) *)

Module Checkout.
Import Supabase.
Section Submit.
Context {number : Type} `{JsNumber number}.

Record CheckoutFormData := {
  full_name : string;
  email : string;
  phone : string;
  delivery_address : string;
  payment_method : string;
  notes : option string;
}.

(** What [onSubmit] sends for one line of the order. *)
Record OrderItemPayload := {
  order_id : string;
  product_id : string;
  quantity : number;
  unit_price : number;
  subtotal : number;
}.

Definition calculateTotal (state : CartContext.CartState number)
    (deliveryFee : number) : number :=
  js_add (CartContext.total state) deliveryFee.

(** [state.items.map(item => ({ order_id: order.id, ... }))] *)
Definition orderItems (order_id_ : string)
    (items : list (CartContext.CartItem number)) : list OrderItemPayload :=
  map (λ item,
         {| order_id := order_id_;
            product_id := CartContext.productId item;
            quantity := CartContext.quantity item;
            unit_price := CartContext.price item;
            subtotal := js_mul (CartContext.price item) (CartContext.quantity item) |})
      items.

(** The backend's reading of a payload as a row of order_items. *)
Definition order_item_row (p : OrderItemPayload) : option OrderItem.t :=
  q ← to_integer (quantity p);
  u ← to_decimal_10_2 (unit_price p);
  s ← to_decimal_10_2 (subtotal p);
  Some {| OrderItem.order_id := order_id p;
          OrderItem.product_id := product_id p;
          OrderItem.quantity := q;
          OrderItem.unit_price := u;
          OrderItem.subtotal := s |}.

Definition order_row (user : uuid) (state : CartContext.CartState number)
    (deliveryFee : number) (data : CheckoutFormData) (now : timestamptz)
    : option Order.t :=
  t ← to_decimal_10_2 (calculateTotal state deliveryFee);
  fee ← to_decimal_10_2 deliveryFee;
  Some {| Order.customer_id := user;
          Order.total_amount := t;
          Order.delivery_address := delivery_address data;
          Order.delivery_fee := Some fee;
          Order.status := Some "pending";
          Order.payment_status := Some "pending";
          Order.payment_method := Some (payment_method data);
          Order.updated_at := now |}.

(** All payloads read as rows, or nothing when one of them is refused. *)
Definition order_item_rows (payloads : list OrderItemPayload)
    : option (list OrderItem.t) :=
  mapM order_item_row payloads.

(** [onSubmit]: the id of the order the page navigates to, when the order and
    its items went in, and the cart afterwards. An order whose items fail to
    go in stays in the table. *)
Definition onSubmit (user : option uuid) (state : CartContext.CartState number)
    (deliveryFee : number) (data : CheckoutFormData)
    : M (option uuid * CartContext.CartState number) :=
  match user with
  | None => mret (None, state)
  | Some u =>
      r ← Supabase.request (λ now viewer d,
             match order_row u state deliveryFee data now with
             | None => Err numeric_value_out_of_range
             | Some row => insert_order viewer row d
             end);
      match r with
      | Err _ => mret (None, state)
      | Ok order =>
          let payloads := orderItems order (CartContext.items state) in
          ri ← Supabase.request (λ now viewer d,
                  match order_item_rows payloads with
                  | None => Err numeric_value_out_of_range
                  | Some rows => insert_order_items now viewer rows d
                  end);
          match ri with
          | Err _ => mret (None, state)
          | Ok _ =>
              mret (Some order,
                    CartContext.cartReducer state CartContext.CLEAR_CART)
          end
      end
  end.

End Submit.
Arguments CheckoutFormData : clear implicits.
Arguments OrderItemPayload : clear implicits.
End Checkout.

(** ** The payment screen (components/PaymentProcessor.tsx) *)

Module PaymentProcessor.

(** The timer made by [setInterval(checkPaymentStatus, 3000)]: its period in
    milliseconds and the payment it polls. *)
Record Interval := {
  period : N;
  polls : string;
}.

(** The component: whether it is mounted, its [paymentId] and
    [paymentStatus] state, and the interval of its effect, when one runs. *)
Record Component := {
  mounted : bool;
  paymentId : option string;
  paymentStatus : option (option string);
  interval : option Interval;
}.

Inductive Event :=
  | PaymentInitiated (paymentId_ : string)   (* setPaymentId(response.paymentId) *)
  | StatusChecked (status : option string)   (* checkPaymentStatus got an answer *)
  | RetryPayment                             (* retryPayment: setPaymentId(null) *)
  | Unmount.

(** [useEffect(() => { if (paymentId) { const interval = setInterval(..., 3000);
    return () => clearInterval(interval); } }, [paymentId])]: when [paymentId]
    changes the cleanup of the previous run clears its interval, and the
    effect runs again. *)
Definition useEffect_paymentId (previous next : option string)
    (running : option Interval) : option Interval :=
  if bool_decide (previous = next) then running
  else match next with
       | Some id => if bool_decide (id = "") then None
                    else Some {| period := 3000; polls := id |}
       | None => None
       end.

Definition setPaymentId (c : Component) (next : option string) : Component :=
  {| mounted := mounted c;
     paymentId := next;
     paymentStatus := paymentStatus c;
     interval := useEffect_paymentId (paymentId c) next (interval c) |}.

Definition step (c : Component) (e : Event) : Component :=
  if mounted c then
    match e with
    | PaymentInitiated id => setPaymentId c (Some id)
    | StatusChecked status =>
        match paymentId c with
        | None | Some "" => c      (* if (!paymentId) return *)
        | Some _ =>
            {| mounted := true; paymentId := paymentId c;
               paymentStatus := Some status; interval := interval c |}
        end
    | RetryPayment =>
        let c' := setPaymentId c None in
        {| mounted := true; paymentId := None; paymentStatus := None;
           interval := interval c' |}
    | Unmount =>
        {| mounted := false; paymentId := paymentId c;
           paymentStatus := paymentStatus c; interval := None |}
    end
  else c.

Definition initial : Component :=
  {| mounted := true; paymentId := None; paymentStatus := None; interval := None |}.

(** The interval a component should be running if its timer followed its
    [paymentId]: none when unmounted or without a payment id. *)
Definition expected_interval (c : Component) : option Interval :=
  if mounted c then
    match paymentId c with
    | Some id => if bool_decide (id = "") then None
                 else Some {| period := 3000; polls := id |}
    | None => None
    end
  else None.

Definition after (events : list Event) : Component :=
  fold_left step events initial.

(** Whether the screen has been torn down, and whether some status check so
    far answered a terminal state. *)
Definition torn_down (events : list Event) : bool :=
  negb (mounted (after events)).

Definition terminal_observed (events : list Event) : bool :=
  existsb (λ e, match e with
                | StatusChecked s => terminal s
                | _ => false
                end) events.

End PaymentProcessor.

(** ** What the specification asks of the order total, and sample data *)

(** [order.total_amount == Σ(order_item.subtotal) + order.delivery_fee] for the
    order [oid] (an order that does not exist has nothing to satisfy). *)
Definition order_total_holds (oid : uuid) (d : db) : bool :=
  match orders d !! oid with
  | Some o =>
      bool_decide (Some (Order.total_amount o)
                   = Z.add (sum_subtotal oid (order_items d)) <$> Order.delivery_fee o)
  | None => true
  end.

(** The order whose total the trigger recomputes when [m] runs on [d]. *)
Definition recomputed_order (m : item_mutation) (d : db) : option uuid :=
  match m with
  | InsertItem _ row => Some (OrderItem.order_id row)
  | UpdateItem id row => (λ _, OrderItem.order_id row) <$> order_items d !! id
  | DeleteItem id => OrderItem.order_id <$> order_items d !! id
  end.

(** The order the item belonged to before [m], when that is another one. *)
Definition order_left_behind (m : item_mutation) (d : db) : option uuid :=
  match m with
  | UpdateItem id row =>
      old ← order_items d !! id;
      if bool_decide (OrderItem.order_id old = OrderItem.order_id row) then None
      else Some (OrderItem.order_id old)
  | _ => None
  end.

Module Sample.

Definition order (fee total : Z) : Order.t :=
  {| Order.customer_id := "customer-1"; Order.total_amount := total;
     Order.delivery_address := "12 Wilkinson Road"; Order.delivery_fee := Some fee;
     Order.status := Some "pending"; Order.payment_status := Some "pending";
     Order.payment_method := Some "orange_money"; Order.updated_at := 0%N |}.

Definition product (vendor : uuid) : Product.t :=
  {| Product.vendor_id := vendor; Product.category_id := "grains";
     Product.name := "rice"; Product.price := 1000; Product.stock_quantity := 40;
     Product.is_active := Some true |}.

Definition vendor (owner : uuid) (verification : string) : Vendor.t :=
  {| Vendor.user_id := owner; Vendor.business_name := "Bo Farm";
     Vendor.location := Some "Bo"; Vendor.verification_status := Some verification |}.

Definition item (order_ product_ : uuid) (quantity_ unit_price_ : Z) : OrderItem.t :=
  {| OrderItem.order_id := order_; OrderItem.product_id := product_;
     OrderItem.quantity := quantity_; OrderItem.unit_price := unit_price_;
     OrderItem.subtotal := unit_price_ * quantity_ |}.

(** Two orders without items yet: A with delivery fee 5.00, B with none; two
    products of a verified vendor and one of a vendor awaiting verification. *)
Definition database : db :=
  {| schema := orders_and_payments_catalog;
     admins := [];
     vendors := {[ "v-verified" := vendor "farmer-1" "verified";
                   "v-pending" := vendor "farmer-2" "pending" ]};
     products := {[ "p1" := product "v-verified"; "p2" := product "v-verified";
                    "p3" := product "v-pending" ]};
     orders := {[ "A" := order 500 500; "B" := order 0 0 ]};
     order_items := ∅;
     payments := ∅;
     uuid_seed := 0%N |}.

(** Order A with its two items of 10.00 and 15.00. *)
Definition with_two_items : db :=
  mutate_all 1%N [InsertItem "i1" (item "A" "p1" 1 1000);
                  InsertItem "i2" (item "A" "p2" 1 1500)] database.

Definition world (faults_ : list bool) : Supabase.World :=
  {| Supabase.database := database; Supabase.faults := faults_;
     Supabase.clock := 1721847270%N; Supabase.session := Some "customer-1" |}.

Definition request (order_ method : string) : PaymentService.PaymentRequest Z :=
  {| PaymentService.orderId := order_;
     PaymentService.amount := 3000;
     PaymentService.currency := "SLL";
     PaymentService.paymentMethod := method;
     PaymentService.customerInfo :=
       {| PaymentService.name := "Aminata"; PaymentService.email := "a@example.org";
          PaymentService.phone := "076000000" |} |}.

Definition payment (order_ status_ : string) : Payment.t :=
  {| Payment.order_id := order_; Payment.payment_method := "orange_money";
     Payment.amount := 3000; Payment.currency := Some "SLL";
     Payment.status := Some status_; Payment.transaction_id := None;
     Payment.customer_name := "Aminata"; Payment.customer_email := "a@example.org";
     Payment.customer_phone := "076000000"; Payment.updated_at := 0%N |}.

(** A world in which order A has one payment, completed; the order has not
    been told. *)
Definition paid_world (faults_ : list bool) : Supabase.World :=
  {| Supabase.database :=
       set_payments database {[ "pay-1" := payment "A" "completed" ]};
     Supabase.faults := faults_;
     Supabase.clock := 1721847270%N; Supabase.session := Some "customer-1" |}.

Definition cart_item (product_ name_ : string) (price_ quantity_ : Z)
    : CartContext.CartItem Z :=
  {| CartContext.id := product_ +:+ "-1721847000"; CartContext.productId := product_;
     CartContext.name := name_; CartContext.price := price_;
     CartContext.unit_ := "kg"; CartContext.quantity := quantity_;
     CartContext.image_url := None; CartContext.vendorId := "v-verified";
     CartContext.vendorName := "Bo Farm"; CartContext.maxStock := 40 |}.

Definition cart : CartContext.CartState Z :=
  CartContext.cartReducer CartContext.initialState
    (CartContext.LOAD_CART [cart_item "p1" "rice" 1000 1;
                            cart_item "p2" "cassava" 750 2]).

(** What [handleAddToCart] dispatches for a product: no quantity of its own. *)
Definition add_payload (product_ name_ : string) (price_ stock : Z)
    (quantity_ : option Z) : CartContext.AddItemPayload Z :=
  {| CartContext.p_productId := product_; CartContext.p_name := name_;
     CartContext.p_price := price_; CartContext.p_unit := "kg";
     CartContext.p_quantity := quantity_; CartContext.p_image_url := None;
     CartContext.p_vendorId := "v-verified"; CartContext.p_vendorName := "Bo Farm";
     CartContext.p_maxStock := stock |}.

Definition form : Checkout.CheckoutFormData :=
  {| Checkout.full_name := "Aminata"; Checkout.email := "a@example.org";
     Checkout.phone := "076000000"; Checkout.delivery_address := "12 Wilkinson Road";
     Checkout.payment_method := "orange_money"; Checkout.notes := None |}.

End Sample.

(** ** What the specification asks of the payment service *)

(** The payment-row lookup of [checkPaymentStatus] fails, for whatever
    reason: the request does not get through, the backend refuses it, or it
    finds no payment of that id. *)
Definition lookup_fails (paymentId_ : string) (w : Supabase.World) : bool :=
  match (Supabase.request (λ _ viewer d, select_payment viewer paymentId_ d) w).1 with
  | Err _ => true
  | Ok _ => false
  end.

(** None of the next [n] requests is scripted to fail. *)
Definition no_fault_in (n : nat) (w : Supabase.World) : bool :=
  forallb negb (take n (Supabase.faults w)).

(** The status of payment [id], and the payment_status of order [id]; a row
    that does not exist has none. *)
Definition payment_status_of (id : uuid) (w : Supabase.World) : option (option string) :=
  Payment.status <$> payments (Supabase.database w) !! id.

Definition order_payment_status_of (id : uuid) (w : Supabase.World)
    : option (option string) :=
  Order.payment_status <$> orders (Supabase.database w) !! id.

(** A product is listed when a row of the list has its id. *)
Definition listed (id : uuid) (l : list product_with_vendor) : bool :=
  bool_decide (id ∈ pv_id <$> l).

(** The row stored for a cart item holds what the backend reads from the
    item's price, its quantity and their product. *)
Definition captured {number} `{JsNumber number} (order : uuid)
    (item : CartContext.CartItem number) (row : OrderItem.t) : Prop :=
  OrderItem.order_id row = order ∧
  OrderItem.product_id row = CartContext.productId item ∧
  to_integer (CartContext.quantity item) = Some (OrderItem.quantity row) ∧
  to_decimal_10_2 (CartContext.price item) = Some (OrderItem.unit_price row) ∧
  to_decimal_10_2 (js_mul (CartContext.price item) (CartContext.quantity item))
  = Some (OrderItem.subtotal row).

(** ** What the specification asks of the cart *)

(** The sum of a list of numbers, the way JavaScript adds them up: from the
    left, starting at 0. *)
Fixpoint added_up {number} `{JsNumber number} (so_far : number) (terms : list number)
    : number :=
  match terms with
  | [] => so_far
  | term :: rest => added_up (js_add so_far term) rest
  end.

Definition sum_of {number} `{JsNumber number} (terms : list number) : number :=
  added_up js_zero terms.

(** The sum over the items of price times quantity, and the sum of the items'
    quantities. *)
Definition sum_of_lines {number} `{JsNumber number}
    (items : list (CartContext.CartItem number)) : number :=
  sum_of ((λ item, js_mul (CartContext.price item) (CartContext.quantity item)) <$> items).

Definition sum_of_quantities {number} `{JsNumber number}
    (items : list (CartContext.CartItem number)) : number :=
  sum_of (CartContext.quantity <$> items).

(** ** The cart in use *)

(** An action other than LOAD_CART. *)
Definition not_LOAD_CART {number} (a : CartContext.CartAction number) : bool :=
  match a with
  | CartContext.LOAD_CART _ => false
  | _ => true
  end.

(** components/ShoppingCart.tsx, [handleQuantityChange]: what the quantity
    buttons and the quantity field dispatch. *)
Definition handleQuantityChange (id : string) (newQuantity : Z) : CartContext.CartAction Z :=
  if bool_decide (newQuantity < 1) then CartContext.REMOVE_ITEM id
  else CartContext.UPDATE_QUANTITY id newQuantity.

(** ** Sequences of item mutations *)

(** No mutation of the sequence, run in order from [d], moves an item to
    another order. *)
Fixpoint keeps_orders (now : timestamptz) (ms : list item_mutation) (d : db) : bool :=
  match ms with
  | [] => true
  | m :: rest =>
      bool_decide (order_left_behind m d = None)
      && keeps_orders now rest (commit d (mutate now m d))
  end.

(** What of an order row no item mutation may change: everything but the
    total and the time of the last update. *)
Definition same_order_but_total (o o' : Order.t) : Prop :=
  Order.customer_id o' = Order.customer_id o ∧
  Order.delivery_address o' = Order.delivery_address o ∧
  Order.delivery_fee o' = Order.delivery_fee o ∧
  Order.status o' = Order.status o ∧
  Order.payment_status o' = Order.payment_status o ∧
  Order.payment_method o' = Order.payment_method o.

(** What one row adds to [SUM(subtotal) ... WHERE order_id = oid]. *)
Definition contribution (oid : uuid) (item : OrderItem.t) : Z :=
  if bool_decide (OrderItem.order_id item = oid) then OrderItem.subtotal item else 0.

(** ** What the payment service may change *)

(** What of a payment row the service never changes. *)
Definition same_payment_identity (p p' : Payment.t) : Prop :=
  Payment.order_id p' = Payment.order_id p ∧
  Payment.payment_method p' = Payment.payment_method p ∧
  Payment.amount p' = Payment.amount p ∧
  Payment.currency p' = Payment.currency p ∧
  Payment.customer_name p' = Payment.customer_name p ∧
  Payment.customer_email p' = Payment.customer_email p ∧
  Payment.customer_phone p' = Payment.customer_phone p.

(** What of an order row the service never changes. *)
Definition same_order_but_payment_status (o o' : Order.t) : Prop :=
  Order.customer_id o' = Order.customer_id o ∧
  Order.total_amount o' = Order.total_amount o ∧
  Order.delivery_address o' = Order.delivery_address o ∧
  Order.delivery_fee o' = Order.delivery_fee o ∧
  Order.status o' = Order.status o ∧
  Order.payment_method o' = Order.payment_method o.

(** One of 'pending', 'completed', 'failed', 'cancelled'. *)
Definition status_known (s : option string) : Prop :=
  ∃ v, s = Some v ∧ v ∈ payment_status_values.

(** ** From the listing to the cart, and the checkout summary *)

(** pages/Products.tsx, [handleAddToCart]: the payload handed to
    [addToCart], or nothing when the product has no vendor information. The
    columns unit and image_url, which the rows above do not carry, are given
    beside the product. *)
Definition handleAddToCart (product : product_with_vendor) (unit_name : string)
    (image : option string) : option (CartContext.AddItemPayload Z) :=
  match pv_vendors product with
  | None => None
  | Some (business_name, _) =>
      Some {| CartContext.p_productId := pv_id product;
              CartContext.p_name := Product.name (pv_product product);
              CartContext.p_price := Product.price (pv_product product);
              CartContext.p_unit := unit_name;
              CartContext.p_quantity := Some 1;
              CartContext.p_image_url := image;
              CartContext.p_vendorId := Product.vendor_id (pv_product product);
              CartContext.p_vendorName := business_name;
              CartContext.p_maxStock := Product.stock_quantity (pv_product product) |}
  end.

(** pages/Checkout.tsx, [groupedItems]: the cart lines grouped by vendor.
    [groups] is a plain object, [{}], keyed by vendor id. The groups are
    listed in the order in which they were created; in which order JavaScript
    enumerates them afterwards is the affair of whoever reads the object. *)
Module Grouping.

(** The property names every plain object inherits from [Object.prototype].
    For such a name [groups[vendorId]] is not undefined before any group was
    made: no group is created, [groups[vendorId].items] is undefined and
    [.push] throws a TypeError. *)
Definition Object_prototype : list string :=
  ["constructor"; "__proto__"; "hasOwnProperty"; "isPrototypeOf";
   "propertyIsEnumerable"; "toLocaleString"; "toString"; "valueOf";
   "__defineGetter__"; "__defineSetter__"; "__lookupGetter__"; "__lookupSetter__"].

Section Groups.
Context {number : Type} `{JsNumber number}.

Record Group := {
  vendorName : string;
  items : list (CartContext.CartItem number);
  subtotal : number;
}.

(** [groups[vendorId].items.push(item); groups[vendorId].subtotal += ...] *)
Definition push (item : CartContext.CartItem number) (g : Group) : Group :=
  {| vendorName := vendorName g;
     items := items g ++ [item];
     subtotal := js_add (subtotal g)
                   (js_mul (CartContext.price item) (CartContext.quantity item)) |}.

Fixpoint push_to (vendor : string) (item : CartContext.CartItem number)
    (groups : list (string * Group)) : option (list (string * Group)) :=
  match groups with
  | [] => None
  | (v, g) :: rest =>
      if bool_decide (v = vendor) then Some ((v, push item g) :: rest)
      else (λ rest', (v, g) :: rest') <$> push_to vendor item rest
  end.

(** The body of the reduce callback; [None] when it throws. *)
Definition add_to_groups (groups : list (string * Group))
    (item : CartContext.CartItem number) : option (list (string * Group)) :=
  let vendor := CartContext.vendorId item in
  if bool_decide (vendor ∈ Object_prototype) then None
  else
    match push_to vendor item groups with
    | Some groups' => Some groups'
    | None =>
        Some (groups ++ [(vendor,
                          push item {| vendorName := CartContext.vendorName item;
                                       items := []; subtotal := js_zero |})])
    end.

(** [state.items.reduce(callback, {})]: an exception of the callback ends
    the reduction. *)
Fixpoint reduce_groups (groups : list (string * Group))
    (l : list (CartContext.CartItem number)) : option (list (string * Group)) :=
  match l with
  | [] => Some groups
  | item :: rest =>
      match add_to_groups groups item with
      | Some groups' => reduce_groups groups' rest
      | None => None
      end
  end.

Definition groupedItems (state : CartContext.CartState number)
    : option (list (string * Group)) :=
  reduce_groups [] (CartContext.items state).

(** What is to hold of the groups built from the lines [l]: no vendor twice,
    every group made of its vendor's lines with their sum as subtotal, every
    line in a group. *)
Definition grouped (groups : list (string * Group))
    (l : list (CartContext.CartItem number)) : Prop :=
  NoDup groups.*1 ∧
  (∀ v g, (v, g) ∈ groups →
     items g = filter (λ item, CartContext.vendorId item = v) l ∧
     subtotal g = sum_of_lines (items g)) ∧
  ∀ item, item ∈ l → CartContext.vendorId item ∈ groups.*1.

End Groups.
Arguments Group : clear implicits.
End Grouping.

(** ** The payment screen's handlers
    (components/PaymentProcessor.tsx) *)

Module PaymentScreen.
Import Supabase.
Section Handlers.
Context {number : Type} `{JsNumber number}.

Record Props := {
  orderId : string;
  amount : number;
  paymentMethod : string;
  customerInfo : PaymentService.CustomerInfo;
}.

Record State := {
  processing : bool;
  paymentId : option string;
  paymentStatus : option PaymentService.PaymentStatus;
  progress : N;
  message : string;
}.

(** What a handler asks of the world around the component. *)
Inductive Effect :=
  | onSuccess_after (ms : N) (paymentId_ : string)   (* setTimeout(() => onSuccess(id), ms) *)
  | onError (error : string)
  | redirect (url : string).                         (* window.location.href = url *)

(** [a || b] on strings that may be undefined. *)
Definition or_else (a : option string) (b : string) : string :=
  match a with
  | None | Some "" => b
  | Some s => s
  end.

Definition initiatePayment (props : Props) (st : State) : M (State * list Effect) :=
  let request :=
    {| PaymentService.orderId := orderId props;
       PaymentService.amount := amount props;
       PaymentService.currency := "SLL";
       PaymentService.paymentMethod := paymentMethod props;
       PaymentService.customerInfo := customerInfo props |} in
  response ← PaymentService.processPayment request;
  if PaymentService.success response then
    match PaymentService.redirectUrl response with
    | None | Some "" =>
        mret ({| processing := false;
                 paymentId := PaymentService.paymentId response;
                 paymentStatus := paymentStatus st;
                 progress := 80;
                 message := "Payment initiated. Please complete on your mobile device." |},
              [])
    | Some url =>
        mret ({| processing := false;
                 paymentId := PaymentService.paymentId response;
                 paymentStatus := paymentStatus st;
                 progress := 60;
                 message := PaymentService.r_message response |},
              [redirect url])
    end
  else
    mret ({| processing := false;
             paymentId := paymentId st;
             paymentStatus := paymentStatus st;
             progress := 0;
             message := "Payment failed to initiate" |},
          [onError (or_else (PaymentService.error response)
                            (PaymentService.r_message response))]).

Definition checkPaymentStatus (st : State) : M (State * list Effect) :=
  match paymentId st with
  | None | Some "" => mret (st, [])
  | Some id =>
      status ← PaymentService.checkPaymentStatus id;
      let seen p m :=
        {| processing := processing st; paymentId := paymentId st;
           paymentStatus := Some status; progress := p; message := m |} in
      if bool_decide (PaymentService.status status = Some "completed") then
        mret (seen 100%N "Payment completed successfully!", [onSuccess_after 1500 id])
      else if bool_decide (PaymentService.status status = Some "failed")
              || bool_decide (PaymentService.status status = Some "cancelled") then
        mret (seen 0%N (PaymentService.message status),
              [onError (PaymentService.message status)])
      else mret (seen (progress st) (message st), [])
  end.

Definition retryPayment (props : Props) (st : State) : M (State * list Effect) :=
  initiatePayment props
    {| processing := processing st; paymentId := None; paymentStatus := None;
       progress := 0; message := "" |}.

(** [simulateSuccess] and [simulateFailure]. *)
Definition simulate (succeed : bool) (st : State) : M (State * list Effect) :=
  match paymentId st with
  | None | Some "" => mret (st, [])
  | Some id =>
      _ ← PaymentService.simulatePaymentCompletion id succeed;
      checkPaymentStatus st
  end.

End Handlers.
Arguments Props : clear implicits.
End PaymentScreen.

(** ** Further sample data *)

Module Cases.

(** A product of the verified vendor that is sold out, as the listing shows it. *)
Definition sold_out : product_with_vendor :=
  {| pv_id := "p4";
     pv_product :=
       {| Product.vendor_id := "v-verified"; Product.category_id := "grains";
          Product.name := "millet"; Product.price := 1200;
          Product.stock_quantity := 0; Product.is_active := Some true |};
     pv_vendors := Some ("Bo Farm", Some "Bo") |}.

(** Product p1 as the listing shows it to the sample customer. *)
Definition listed_rice : product_with_vendor :=
  {| pv_id := "p1"; pv_product := Sample.product "v-verified";
     pv_vendors := Some ("Bo Farm", Some "Bo") |}.

(** A world in which order A has one payment, pending. *)
Definition pending_world (faults_ : list bool) : Supabase.World :=
  {| Supabase.database :=
       set_payments Sample.database {[ "pay-1" := Sample.payment "A" "pending" ]};
     Supabase.faults := faults_;
     Supabase.clock := 1721847270%N; Supabase.session := Some "customer-1" |}.

(** A payment screen that holds a payment id and shows 80%. *)
Definition screen (id : string) : PaymentScreen.State :=
  {| PaymentScreen.processing := false; PaymentScreen.paymentId := Some id;
     PaymentScreen.paymentStatus := None; PaymentScreen.progress := 80%N;
     PaymentScreen.message := "Payment initiated. Please complete on your mobile device." |}.

Definition first_item : item_mutation :=
  InsertItem "i1" (Sample.item "A" "p1" 1 1000).

(** The tables as the two migrations leave them, with a cancelled payment
    for order A, whose payment_status is 'failed'. *)
Definition cancelled_order : Order.t :=
  {| Order.customer_id := "customer-1"; Order.total_amount := 500;
     Order.delivery_address := "12 Wilkinson Road"; Order.delivery_fee := Some 500;
     Order.status := Some "pending"; Order.payment_status := Some "failed";
     Order.payment_method := Some "orange_money"; Order.updated_at := 0%N |}.

Definition cancelled_database : db :=
  {| schema := deployed_catalog;
     admins := [];
     vendors := vendors Sample.database;
     products := products Sample.database;
     orders := {[ "A" := cancelled_order ]};
     order_items := ∅;
     payments := {[ "pay-1" := Sample.payment "A" "cancelled" ]};
     uuid_seed := 0%N |}.

(** Order C has no delivery fee, and one item. *)
Definition no_fee_database : db :=
  set_order_items
    (set_orders Sample.database
       (<["C" := {| Order.customer_id := "customer-1"; Order.total_amount := 1000;
                    Order.delivery_address := "12 Wilkinson Road";
                    Order.delivery_fee := None;
                    Order.status := Some "pending";
                    Order.payment_status := Some "pending";
                    Order.payment_method := Some "orange_money";
                    Order.updated_at := 0%N |}]> (orders Sample.database)))
    {[ "i9" := Sample.item "C" "p1" 1 1000 ]}.

(** A cart with a line whose vendor id is the name of an inherited property. *)
Definition odd_cart : CartContext.CartState Z :=
  CartContext.cartReducer CartContext.initialState
    (CartContext.LOAD_CART
       [Sample.cart_item "p1" "rice" 1000 1;
        {| CartContext.id := "p5-1721847000"; CartContext.productId := "p5";
           CartContext.name := "yam"; CartContext.price := 900;
           CartContext.unit_ := "kg"; CartContext.quantity := 1;
           CartContext.image_url := None; CartContext.vendorId := "constructor";
           CartContext.vendorName := "Kono Farm"; CartContext.maxStock := 10 |}]).

Definition cart_actions : list (CartContext.CartAction Z) :=
  [CartContext.ADD_ITEM (Sample.add_payload "p1" "rice" 1000 3 None) 1721847000;
   CartContext.ADD_ITEM (Sample.add_payload "p1" "rice" 1000 3 None) 1721847001;
   CartContext.ADD_ITEM (Sample.add_payload "p2" "cassava" 750 40 (Some 2)) 1721847003;
   CartContext.UPDATE_QUANTITY "p1-1721847000" 3].

End Cases.

(** * Properties *)

Section CartFacts.
Context {number : Type} `{JsNumber number}.
Import CartContext.

Lemma recomputed_consistent (l : list (CartItem number)) :
  cart_consistent (recomputed l).
Proof. split; reflexivity. Qed.

Lemma cartReducer_consistent (s : CartState number) (a : CartAction number) :
  cart_consistent s → cart_consistent (cartReducer s a).
Proof.
  intros Hs. destruct a as [payload now | payload | id_ q | | payload]; simpl.
  - destruct (findIndex _ _) as [i|].
    + destruct (items s !! i) as [existing|]; [|exact Hs].
      destruct (js_gt _ _); [exact Hs | apply recomputed_consistent].
    + destruct (js_gt _ _); [exact Hs | apply recomputed_consistent].
  - apply recomputed_consistent.
  - destruct (js_le _ _); apply recomputed_consistent.
  - split; reflexivity.
  - apply recomputed_consistent.
Qed.

Lemma dispatched_consistent (actions : list (CartAction number)) :
  cart_consistent (dispatched actions).
Proof.
  unfold dispatched.
  assert (Hinit : cart_consistent (initialState (number := number)))
    by (split; reflexivity).
  revert Hinit. generalize (initialState (number := number)) as s.
  induction actions as [|a actions IH]; intros s Hs; simpl.
  - exact Hs.
  - apply IH, cartReducer_consistent, Hs.
Qed.

(** The reductions of the reducer add up the terms the specification names. *)
Lemma fold_left_added_up {A} (term : A → number) (l : list A) (so_far : number) :
  fold_left (λ sum x, js_add sum (term x)) l so_far = added_up so_far (term <$> l).
Proof.
  revert so_far. induction l as [|x l IH]; intros so_far; simpl; [done|].
  apply IH.
Qed.

Lemma reduce_total_sum (l : list (CartItem number)) :
  reduce_total l = sum_of_lines l.
Proof. apply (fold_left_added_up (λ item, js_mul (price item) (quantity item))). Qed.

Lemma reduce_itemCount_sum (l : list (CartItem number)) :
  reduce_itemCount l = sum_of_quantities l.
Proof. apply (fold_left_added_up quantity). Qed.

(** C9. Every cart state reached from the empty cart by a sequence of
    ADD_ITEM, REMOVE_ITEM, UPDATE_QUANTITY, CLEAR_CART and LOAD_CART actions has
    [total] equal to the sum over its items of price times quantity and
    [itemCount] equal to the sum of its items' quantities, the sums being
    taken over the items in cart order, whatever the arithmetic of numbers. *)
Theorem cart_totals_invariant (actions : list (CartAction number)) :
  total (dispatched actions) = sum_of_lines (items (dispatched actions)) ∧
  itemCount (dispatched actions) = sum_of_quantities (items (dispatched actions)).
Proof.
  destruct (dispatched_consistent actions) as [Htotal Hcount].
  by rewrite Htotal, Hcount, reduce_total_sum, reduce_itemCount_sum.
Qed.

End CartFacts.

(** On exact amounts [sum_of] is the sum of the terms, in whatever order they
    come. *)
Lemma added_up_Z (so_far : Z) (terms : list Z) :
  added_up so_far terms = so_far + foldr Z.add 0 terms.
Proof.
  revert so_far. induction terms as [|term terms IH]; intros so_far; simpl; [lia|].
  rewrite IH. lia.
Qed.

Lemma sum_of_Z (terms : list Z) : sum_of terms = foldr Z.add 0 terms.
Proof. unfold sum_of. rewrite added_up_Z. simpl. lia. Qed.

Lemma sum_of_Z_Permutation (terms terms' : list Z) :
  terms ≡ₚ terms' → sum_of terms = sum_of terms'.
Proof.
  rewrite !sum_of_Z. induction 1; simpl; lia.
Qed.

(** On exact amounts the reductions are the plain sums. *)
Lemma fold_left_add_Z {A} (g : A → Z) (l : list A) (a : Z) :
  fold_left (λ sum x, sum + g x) l a = a + foldr (λ x acc, g x + acc) 0 l.
Proof.
  revert a. induction l as [|x l IH]; intros a; simpl; [lia|].
  rewrite IH. lia.
Qed.

Lemma reduce_total_Z (l : list (CartContext.CartItem Z)) :
  CartContext.reduce_total l
  = foldr (λ item acc, CartContext.price item * CartContext.quantity item + acc) 0 l.
Proof.
  unfold CartContext.reduce_total. simpl.
  rewrite (fold_left_add_Z (λ item, CartContext.price item * CartContext.quantity item)).
  lia.
Qed.

(** Rice at 10.00 is added twice, a third time beyond the stock of 3 (refused),
    then cassava at 7.50 with quantity 2, and the rice line is set to 3. *)
Example cart_after_five_actions :
  let s := CartContext.dispatched
             [CartContext.ADD_ITEM (Sample.add_payload "p1" "rice" 1000 3 None) 1721847000;
              CartContext.ADD_ITEM (Sample.add_payload "p1" "rice" 1000 3 None) 1721847001;
              CartContext.ADD_ITEM (Sample.add_payload "p1" "rice" 1000 3 (Some 2)) 1721847002;
              CartContext.ADD_ITEM (Sample.add_payload "p2" "cassava" 750 40 (Some 2)) 1721847003;
              CartContext.UPDATE_QUANTITY "p1-1721847000" 3] in
  CartContext.id <$> CartContext.items s = ["p1-1721847000"; "p2-1721847003"] ∧
  CartContext.quantity <$> CartContext.items s = [3; 2] ∧
  CartContext.total s = 4500 ∧
  CartContext.itemCount s = 5 ∧
  sum_of_lines (CartContext.items s) = 3 * 1000 + 2 * 750 ∧
  sum_of_quantities (CartContext.items s) = 3 + 2.
Proof. repeat split; vm_compute; reflexivity. Qed.

(** ** Order totals *)

Section OrderTotals.
Implicit Types (d : db) (m : item_mutation) (oid : uuid).

Lemma update_order_total_items now NEW OLD d d' :
  update_order_total now NEW OLD d = Ok d' → order_items d' = order_items d.
Proof.
  unfold update_order_total. intros Hrun.
  destruct (coalesce_order_id NEW OLD) as [oid|]; [|by inversion Hrun].
  destruct (orders d !! oid) as [o|]; [|by inversion Hrun].
  destruct (Order.delivery_fee o) as [fee|]; [|done].
  destruct (fits_decimal_10_2 _); [|done].
  by inversion Hrun.
Qed.

Lemma update_order_total_holds now NEW OLD d d' oid :
  update_order_total now NEW OLD d = Ok d' →
  coalesce_order_id NEW OLD = Some oid →
  order_total_holds oid d' = true.
Proof.
  unfold update_order_total. intros Hrun Hoid. rewrite Hoid in Hrun.
  unfold order_total_holds.
  destruct (orders d !! oid) as [o|] eqn:Ho.
  - destruct (Order.delivery_fee o) as [fee|] eqn:Hfee; [|done].
    destruct (fits_decimal_10_2 _); [|done].
    inversion Hrun; subst d'; clear Hrun. simpl.
    rewrite lookup_insert_eq. simpl.
    by apply bool_decide_eq_true.
  - inversion Hrun; subst d'. by rewrite Ho.
Qed.

(** Whatever the mutation, once it has gone through the order named by the
    row it wrote (or deleted) has the total the specification asks for. *)
Lemma mutate_recomputes_total now m d d' oid :
  mutate now m d = Ok d' →
  recomputed_order m d = Some oid →
  order_total_holds oid d' = true.
Proof.
  destruct m as [id row | id row | id]; simpl.
  - unfold insert_order_item. destruct (order_items d !! id); [done|].
    destruct (order_item_violation row d); [done|].
    intros Hrun [= <-]. by eapply update_order_total_holds.
  - unfold update_order_item. destruct (order_items d !! id) as [old|]; [|done].
    destruct (order_item_violation row d); [done|].
    intros Hrun [= <-]. by eapply update_order_total_holds.
  - unfold delete_order_item. destruct (order_items d !! id) as [old|]; [|done].
    intros Hrun [= <-]. by eapply update_order_total_holds.
Qed.

End OrderTotals.

(** The example of the specification: two items of 10.00 and 15.00 and a
    delivery fee of 5.00 give a total of 30.00. *)
Example total_of_two_items :
  Order.total_amount <$> orders Sample.with_two_items !! "A" = Some 3000.
Proof. vm_compute. reflexivity. Qed.

(** C1. The total of an order is to equal the sum of its remaining items'
    subtotals plus its delivery fee after every mutation of its items. The
    trigger recomputes only the order named by the new row: when an UPDATE
    moves item i2 (15.00) from order A to order B, order B is recomputed and
    order A keeps 30.00 although 10.00 + 5.00 = 15.00 is left. *)
Theorem order_total_stale_after_item_moves :
  let move := UpdateItem "i2" (Sample.item "B" "p2" 1 1500) in
  let after := mutate 2%N move Sample.with_two_items in
  order_total_holds "A" Sample.with_two_items = true ∧
  order_left_behind move Sample.with_two_items = Some "A" ∧
  ∃ d', after = Ok d' ∧
        Order.total_amount <$> orders d' !! "A" = Some 3000 ∧
        sum_subtotal "A" (order_items d') = 1000 ∧
        Order.delivery_fee <$> orders d' !! "A" = Some (Some 500) ∧
        order_total_holds "A" d' = false ∧
        order_total_holds "B" d' = true.
Proof.
  split; [by vm_compute|]. split; [by vm_compute|].
  eexists. split; [vm_compute; reflexivity|].
  repeat split; by vm_compute.
Qed.

(** ** The CHECK on orders.payment_status *)

Lemma sql_check_in_elem (v : option string) (l : list string) :
  sql_check_in v (Some l) = true ↔ v = None ∨ ∃ s, v = Some s ∧ s ∈ l.
Proof.
  destruct v as [s|]; simpl.
  - rewrite bool_decide_eq_true. split.
    + intros Hs. right. by exists s.
    + intros [?|(s' & [= <-] & Hs)]; done.
  - split; [by left | done].
Qed.

(** The migration that creates the order tables with IF NOT EXISTS cannot come
    first: without the products table of the base migration it leaves no
    order_items table, and the base migration refuses to run once orders
    exists. *)
Lemma orders_and_payments_needs_base :
  orders_and_payments_migration ∅ !! "order_items" = None ∧
  ∀ c : gmap string (list constraint),
    is_Some (c !! "orders") → (∃ e, base_migration c = Err e).
Proof.
  split; [reflexivity|].
  intros c [k Hk]. unfold base_migration, base_reference_tables, create_table.
  destruct (c !! "vendors"); simpl; [by eexists|].
  rewrite lookup_insert_ne by done.
  destruct (c !! "products"); simpl; [by eexists|].
  rewrite !lookup_insert_ne by done. rewrite Hk. simpl. by eexists.
Qed.

(** What create_orders_and_payments.sql writes for the column, taken alone:
    the four values of the specification, and NULL. *)
Lemma orders_and_payments_payment_status (v : option string) :
  column_accepts orders_and_payments_catalog "orders" "payment_status" v = true ↔
  v = None ∨ ∃ s, v = Some s ∧ s ∈ ["pending"; "completed"; "failed"; "cancelled"].
Proof. apply (sql_check_in_elem v). Qed.

(** C6. The values orders.payment_status can hold are to be exactly pending,
    completed, failed and cancelled. Where the base migration created the
    table, its CHECK lists three values; the later CREATE TABLE IF NOT EXISTS
    leaves that table alone, so 'cancelled', which the later file, its column
    comment and the payment service all use, is refused. *)
Theorem orders_payment_status_refuses_cancelled :
  column_accepts deployed_catalog "orders" "payment_status" (Some "cancelled") = false ∧
  (∀ v, column_accepts deployed_catalog "orders" "payment_status" v = true ↔
        v = None ∨ ∃ s, v = Some s ∧ s ∈ ["pending"; "completed"; "failed"]) ∧
  column_accepts orders_and_payments_catalog "orders" "payment_status"
    (Some "cancelled") = true ∧
  column_accepts deployed_catalog "payments" "status" (Some "cancelled") = true.
Proof.
  split; [reflexivity|]. split; [|split; reflexivity].
  intros v. apply (sql_check_in_elem v).
Qed.

(** ** Row-level security on orders, order_items and payments *)

(** The policies of orders read order_items and the policies of order_items
    read orders; the policies of payments read orders. Expanding them for any
    statement of the client on one of the three tables comes back to a table
    that is being expanded. The tables of the listing are not affected. *)
Lemma row_security_refuses :
  row_security "payments" [INSERT; SELECT] = Err (infinite_recursion "orders") ∧
  row_security "payments" [UPDATE; SELECT] = Err (infinite_recursion "orders") ∧
  row_security "payments" [SELECT] = Err (infinite_recursion "orders") ∧
  row_security "orders" [INSERT; SELECT] = Err (infinite_recursion "orders") ∧
  row_security "orders" [UPDATE; SELECT] = Err (infinite_recursion "orders") ∧
  row_security "order_items" [INSERT] = Err (infinite_recursion "order_items").
Proof. repeat split; vm_compute; reflexivity. Qed.

Example row_security_of_the_listing :
  row_security "products" [SELECT] = Ok () ∧ row_security "vendors" [SELECT] = Ok ().
Proof. split; vm_compute; reflexivity. Qed.

Lemma guarded_refused {A} table sent cmds d (stmt : result A) e0 :
  row_security table cmds = Err e0 → ∃ e, guarded table sent cmds d stmt = Err e.
Proof.
  intros Hrefused. unfold guarded.
  destruct (unknown_column _ _ _); [by eexists|]. rewrite Hrefused. by eexists.
Qed.

Lemma insert_payment_refused viewer row d : ∃ e, insert_payment viewer row d = Err e.
Proof. eapply guarded_refused, row_security_refuses. Qed.

Lemma update_payment_refused now viewer id s txn d :
  ∃ e, update_payment now viewer id s txn d = Err e.
Proof. eapply guarded_refused, row_security_refuses. Qed.

Lemma select_payment_refused viewer id d : ∃ e, select_payment viewer id d = Err e.
Proof. eapply guarded_refused, row_security_refuses. Qed.

Lemma update_order_payment_status_refused now viewer id s d :
  ∃ e, update_order_payment_status now viewer id s d = Err e.
Proof. eapply guarded_refused, row_security_refuses. Qed.

Lemma insert_order_refused viewer row d : ∃ e, insert_order viewer row d = Err e.
Proof. eapply guarded_refused, row_security_refuses. Qed.

Lemma insert_order_items_refused now viewer rows d :
  ∃ e, insert_order_items now viewer rows d = Err e.
Proof. eapply guarded_refused, row_security_refuses. Qed.

(** A request whose statement is refused leaves the database as it was. *)
Lemma request_refused {A} (stmt : timestamptz → option uuid → db → result (A * db))
    (w : Supabase.World) :
  (∀ now viewer d, ∃ e, stmt now viewer d = Err e) →
  ∃ e, Supabase.request stmt w = (Err e, Supabase.answered w (Supabase.database w)).
Proof.
  intros Hrefused. unfold Supabase.request.
  destruct (Hrefused (Supabase.clock w) (Supabase.session w) (Supabase.database w))
    as [e He].
  rewrite He. destruct (Supabase.faults w) as [|[] ?]; by eexists.
Qed.

Lemma request_clock {A} (stmt : timestamptz → option uuid → db → result (A * db))
    (w : Supabase.World) :
  Supabase.clock (Supabase.request stmt w).2 = Supabase.clock w.
Proof.
  unfold Supabase.request. destruct (Supabase.faults w) as [|[] ?]; simpl; try done.
  all: by destruct (stmt _ _ _) as [[? ?]|].
Qed.

(** ** The payment service *)

Section ServiceFacts.
Context {number : Type} `{JsNumber number}.
Import Supabase PaymentService.
Implicit Types (w : World) (d : db) (id : uuid).

Lemma insert_payment_single_refused (request : PaymentRequest number) method w :
  ∃ e, insert_payment_single request method w = (Err e, answered w (database w)).
Proof.
  apply request_refused. intros now viewer d.
  destruct (payment_row request method now) as [row|]; [|by eexists].
  destruct (insert_payment_refused viewer row d) as [e ->]. by eexists.
Qed.

Lemma processPayment_refused (request : PaymentRequest number) w :
  paymentMethod request ∈ payment_method_values →
  ∃ e msg, processPayment request w = (failure e msg, answered w (database w)).
Proof.
  intros Hmethod. unfold processPayment.
  unfold processOrangeMoneyPayment, processAfriMoneyPayment, processStripePayment.
  unfold mbind, M_bind.
  repeat case_bool_decide.
  1-3: match goal with
       | |- context [insert_payment_single ?r ?method ?w0] =>
           destruct (insert_payment_single_refused r method w0) as [e ->]
       end; by do 2 eexists.
  exfalso. unfold payment_method_values in Hmethod.
  repeat (apply elem_of_cons in Hmethod as [?|Hmethod]; [done|]).
  by apply elem_of_nil in Hmethod.
Qed.

Lemma processPayment_database (request : PaymentRequest number) w :
  success (processPayment request w).1 = false ∧
  paymentId (processPayment request w).1 = None ∧
  redirectUrl (processPayment request w).1 = None ∧
  database (processPayment request w).2 = database w.
Proof.
  destruct (decide (paymentMethod request ∈ payment_method_values)) as [Hmethod|Hother].
  - destruct (processPayment_refused request w Hmethod) as (e & msg & ->). done.
  - unfold processPayment. repeat case_bool_decide; try done.
    all: exfalso; apply Hother; unfold payment_method_values.
    all: match goal with Heq : paymentMethod _ = _ |- _ => rewrite Heq end.
    all: repeat constructor.
Qed.

Lemma checkPaymentStatus_refused id w :
  checkPaymentStatus id w
  = ({| status := Some "failed"; transactionId := None;
        message := "Failed to check payment status"; updatedAt := clock w |},
     answered w (database w)).
Proof.
  unfold checkPaymentStatus, mbind, M_bind.
  destruct (request_refused (λ _ viewer d, select_payment viewer id d) w) as [e ->];
    [intros; apply select_payment_refused|].
  done.
Qed.

Lemma updatePaymentStatus_refused id (s : StatusArg) txn w :
  updatePaymentStatus id s txn w = (false, answered w (database w)).
Proof.
  unfold updatePaymentStatus, mbind, M_bind.
  destruct (request_refused
              (λ now viewer d,
                 update_payment now viewer id (status_text s) (truthy_string txn) d) w)
    as [e ->]; [intros; apply update_payment_refused|].
  done.
Qed.

Lemma simulatePaymentCompletion_refused id (ok : bool) w :
  simulatePaymentCompletion id ok w = (false, answered w (database w)).
Proof.
  unfold simulatePaymentCompletion, mbind, M_bind, Date_now.
  by rewrite updatePaymentStatus_refused.
Qed.

Lemma run_database (op : operation number) w : database (run op w) = database w.
Proof.
  destruct op as [request | id | id s txn | id ok]; simpl.
  - apply processPayment_database.
  - by rewrite checkPaymentStatus_refused.
  - by rewrite updatePaymentStatus_refused.
  - by rewrite simulatePaymentCompletion_refused.
Qed.

Lemma run_all_database (ops : list (operation number)) w :
  database (run_all ops w) = database w.
Proof.
  unfold run_all. revert w. induction ops as [|op ops IH]; intros w; simpl; [done|].
  by rewrite IH, run_database.
Qed.

(** C7. A call of [processPayment] for one of the three methods is to be able
    to succeed, and then to have inserted one pending payment for the order
    of the request. No call succeeds: whoever asks, the customer of the order
    included, the INSERT is refused while its policies are expanded, the
    answer is success: false and the payments table is as before. *)
Theorem processPayment_inserts_nothing (request : PaymentRequest number) w :
  success (processPayment request w).1 = false ∧
  paymentId (processPayment request w).1 = None ∧
  redirectUrl (processPayment request w).1 = None ∧
  payments (database (processPayment request w).2) = payments (database w).
Proof.
  destruct (processPayment_database request w) as (Hs & Hid & Hurl & Hdb).
  by rewrite Hs, Hid, Hurl, Hdb.
Qed.



End ServiceFacts.


Section ServiceExamples.
Import Supabase PaymentService.

(** C7 at a request of the customer of order A for that order. *)
Example processPayment_of_the_customer :
  let w := Sample.world [] in
  Order.customer_id <$> orders (database w) !! "A" = session w ∧
  (processPayment (Sample.request "A" "orange_money") w).1
  = {| success := false; paymentId := None; redirectUrl := None;
       r_message := "Failed to initiate Orange Money payment";
       error := Some (error_message (infinite_recursion "orders")) |} ∧
  success (processPayment (Sample.request "A" "afrimoney") w).1 = false ∧
  success (processPayment (Sample.request "A" "stripe") w).1 = false.
Proof. repeat split; vm_compute; reflexivity. Qed.




Example completed_payment_after_attempts :
  (simulatePaymentCompletion "pay-1" false (Sample.paid_world [])).1 = false ∧
  payment_status_of "pay-1"
    (run (number := Z) (SimulatePaymentCompletion "pay-1" false) (Sample.paid_world []))
  = Some (Some "completed").
Proof. split; vm_compute; reflexivity. Qed.


End ServiceExamples.

(** ** Requests that get through *)

Lemma request_unfaulted {A} (stmt : timestamptz → option uuid → db → result (A * db))
    (w : Supabase.World) :
  no_fault_in 1 w = true →
  Supabase.request stmt w
  = match stmt (Supabase.clock w) (Supabase.session w) (Supabase.database w) with
    | Ok (a, d') => (Ok a, Supabase.answered w d')
    | Err e => (Err e, Supabase.answered w (Supabase.database w))
    end.
Proof.
  unfold no_fault_in, Supabase.request. by destruct (Supabase.faults w) as [|[] ?].
Qed.

(** ** The listing *)

Section ListingFacts.
Import Supabase Products.
Implicit Types (w : World) (d : db) (id : uuid).

(** C4, as the code has it. When the first query of [fetchProducts] gets
    through, a product whose vendor is not verified is not in the list it
    gives to a viewer who is neither that vendor nor an admin: row-level
    security hides the vendor row from the embedded read and the listing
    keeps only products with a vendor. *)
Theorem unverified_vendor_hidden_from_listing w id product vendor :
  products (database w) !! id = Some product →
  vendors (database w) !! Product.vendor_id product = Some vendor →
  Vendor.verification_status vendor ≠ Some "verified" →
  session w ≠ Some (Vendor.user_id vendor) →
  has_role_admin (session w) (database w) = false →
  no_fault_in 1 w = true →
  listed id (fetchProducts w).1 = false.
Proof.
  intros Hproduct Hvendor Hstatus Howner Hadmin Hfaults.
  apply bool_decide_eq_false. intros Hlisted.
  unfold fetchProducts, mbind, M_bind, request in Hlisted.
  assert (Hhead : match faults w with true :: _ => False | _ => True end).
  { unfold no_fault_in in Hfaults. by destruct (faults w) as [|[] ?]. }
  assert (Hin : id ∈ pv_id <$>
            filter (λ p, pv_vendors p ≠ None)
              (filter (λ p, pv_vendors p ≠ None)
                 (embed_vendor (session w) (database w) <$>
                    filter (λ row : uuid * Product.t, Product.is_active row.2 = Some true)
                      (map_to_list (products (database w)))))).
  { destruct (faults w) as [|[] ?]; done. }
  clear Hlisted.
  apply list_elem_of_fmap_1 in Hin as (pv & -> & Hpv).
  apply list_elem_of_filter in Hpv as [Hsome Hpv].
  apply list_elem_of_filter in Hpv as [_ Hpv].
  apply list_elem_of_fmap_1 in Hpv as ([id' product'] & -> & Hrow).
  apply list_elem_of_filter in Hrow as [_ Hrow].
  apply elem_of_map_to_list in Hrow. simpl in *.
  rewrite Hproduct in Hrow. injection Hrow as <-.
  apply Hsome. unfold embed_vendor. simpl. rewrite Hvendor.
  unfold vendor_visible. rewrite Hadmin.
  rewrite !bool_decide_eq_false_2 by done. done.
Qed.

(** C4 fails: when the first query does not get through, the fallback query
    lists the product of a vendor still awaiting verification. *)
Lemma unverified_vendor_listed_by_fallback :
  products Sample.database !! "p3" = Some (Sample.product "v-pending") ∧
  Vendor.verification_status <$> vendors Sample.database !! "v-pending"
  = Some (Some "pending") ∧
  listed "p3" (fetchProducts (Sample.world [true])).1 = true.
Proof. repeat split; vm_compute; reflexivity. Qed.

Lemma unverified_vendor_hidden_from_listing_witness :
  let w := Sample.world [] in
  products (database w) !! "p3" = Some (Sample.product "v-pending") ∧
  vendors (database w) !! Product.vendor_id (Sample.product "v-pending")
  = Some (Sample.vendor "farmer-2" "pending") ∧
  Vendor.verification_status (Sample.vendor "farmer-2" "pending") ≠ Some "verified" ∧
  session w ≠ Some (Vendor.user_id (Sample.vendor "farmer-2" "pending")) ∧
  has_role_admin (session w) (database w) = false ∧
  no_fault_in 1 w = true ∧
  listed "p3" (fetchProducts w).1 = false.
Proof.
  assert (H1 : products (database (Sample.world [])) !! "p3"
               = Some (Sample.product "v-pending")) by (vm_compute; reflexivity).
  assert (H2 : vendors (database (Sample.world []))
                 !! Product.vendor_id (Sample.product "v-pending")
               = Some (Sample.vendor "farmer-2" "pending")) by (vm_compute; reflexivity).
  assert (H3 : Vendor.verification_status (Sample.vendor "farmer-2" "pending")
               ≠ Some "verified") by discriminate.
  assert (H4 : session (Sample.world [])
               ≠ Some (Vendor.user_id (Sample.vendor "farmer-2" "pending")))
    by discriminate.
  assert (H5 : has_role_admin (session (Sample.world []))
                 (database (Sample.world [])) = false) by (vm_compute; reflexivity).
  assert (H6 : no_fault_in 1 (Sample.world []) = true) by reflexivity.
  repeat (split; [assumption|]).
  exact (unverified_vendor_hidden_from_listing (Sample.world []) "p3" _ _
           H1 H2 H3 H4 H5 H6).
Defined.

End ListingFacts.

(** ** The payment screen *)

Section ScreenFacts.
Import PaymentProcessor.

Lemma step_interval (c : Component) (e : Event) :
  interval c = expected_interval c →
  interval (step c e) = expected_interval (step c e).
Proof.
  unfold expected_interval, step. intros Hc.
  destruct (mounted c) eqn:Hm; [|by rewrite Hm].
  destruct e as [id | status | | ]; simpl; rewrite ?Hm.
  - unfold useEffect_paymentId. case_bool_decide as Hsame; [|done].
    by rewrite Hc, Hsame.
  - destruct (paymentId c) as [[|a s]|] eqn:Hid; simpl; by rewrite ?Hm, ?Hid.
  - unfold useEffect_paymentId. case_bool_decide as Hsame; [|done].
    by rewrite Hc, Hsame.
  - done.
Qed.



End ScreenFacts.

(** ** Checkout *)

Section CheckoutFacts.
Context {number : Type} `{JsNumber number}.
Import Supabase Checkout.
Implicit Types (w : World) (d : db) (id : uuid).

(** What [onSubmit] sends for the lines of the cart: the price and the
    quantity the cart holds and their product, read from the cart alone. *)
Lemma orderItems_of_the_cart order (items : list (CartContext.CartItem number)) :
  Forall2 (λ item line,
             Checkout.order_id line = order ∧
             product_id line = CartContext.productId item ∧
             unit_price line = CartContext.price item ∧
             quantity line = CartContext.quantity item ∧
             subtotal line = js_mul (unit_price line) (quantity line))
          items (orderItems order items).
Proof. unfold orderItems. induction items; constructor; done. Qed.

Lemma order_item_rows_captured order (items : list (CartContext.CartItem number)) rows :
  order_item_rows (orderItems order items) = Some rows →
  Forall2 (captured order) items rows.
Proof.
  unfold order_item_rows. intros Hrows%mapM_Some.
  unfold orderItems in Hrows. revert rows Hrows.
  induction items as [|item items IH]; intros rows Hrows; simpl in *.
  - inversion Hrows. constructor.
  - inversion Hrows as [|p row ps rows' Hrow Hrest]; subst. constructor; [|by apply IH].
    unfold order_item_row in Hrow. simpl in Hrow.
    destruct (to_integer _) as [q|] eqn:Hq; [|done].
    destruct (to_decimal_10_2 (CartContext.price item)) as [u|] eqn:Hu; [|done].
    destruct (to_decimal_10_2 (js_mul _ _)) as [t|] eqn:Ht; [|done].
    simpl in Hrow. injection Hrow as <-. unfold captured. simpl.
    by rewrite Hq, Hu, Ht.
Qed.

(** C8. A checkout is to store, for every cart item, an order item with the
    price and quantity of the cart. No checkout stores anything: the INSERT of
    the order, sent for the signed-in user with RETURNING, is refused while
    the policies of orders are expanded, so [onSubmit] reports no order,
    keeps the cart and leaves orders and order_items as they were. *)
Theorem onSubmit_stores_nothing user (state : CartContext.CartState number)
    deliveryFee data w :
  (onSubmit user state deliveryFee data w).1 = (None, state) ∧
  orders (database (onSubmit user state deliveryFee data w).2) = orders (database w) ∧
  order_items (database (onSubmit user state deliveryFee data w).2)
  = order_items (database w).
Proof.
  unfold onSubmit. destruct user as [u|]; [|done].
  unfold mbind, M_bind.
  match goal with
  | |- context [request ?stmt w] =>
      destruct (request_refused stmt w) as [e ->]
  end; [|done].
  intros now viewer d.
  destruct (order_row u state deliveryFee data now) as [row|]; [|by eexists].
  apply insert_order_refused.
Qed.

End CheckoutFacts.

(** C8 at the checkout of the sample cart by the customer who is signed in:
    rice at 10.00 and cassava at 7.50 twice, delivery 5.00. *)
Example checkout_of_sample_cart :
  let run := Checkout.onSubmit (Some "customer-1") Sample.cart 500 Sample.form
               (Sample.world []) in
  Supabase.session (Sample.world []) = Some "customer-1" ∧
  CartContext.items Sample.cart ≠ [] ∧
  run.1 = (None, Sample.cart) ∧
  Supabase.database run.2 = Sample.database ∧
  insert_order (Some "customer-1") (Sample.order 500 3000) Sample.database
  = Err (infinite_recursion "orders") ∧
  insert_order (Some "customer-1") (Sample.order 500 3000) Cases.cancelled_database
  = Err (undefined_column "orders" "customer_name").
Proof. repeat split; try (vm_compute; reflexivity). vm_compute. discriminate. Qed.

(** * Further properties *)

(** ** The cart *)

Section CartMore.
Context {number : Type} `{JsNumber number}.
Import CartContext.

(** X1. Loading the items of a cart that was reached from the empty cart
    gives that cart back, totals included, whatever the cart held before:
    what is saved on every change is enough to restore the state on mount. *)
Theorem load_cart_restores (actions : list (CartAction number)) (s0 : CartState number) :
  cartReducer s0 (LOAD_CART (items (dispatched actions))) = dispatched actions.
Proof.
  pose proof (dispatched_consistent actions) as [Htotal Hcount].
  destruct (dispatched actions) as [l t c]. simpl in *. unfold recomputed.
  by rewrite <- Htotal, <- Hcount.
Qed.

Lemma findIndex_None {A} (p : A → bool) (l : list A) :
  findIndex p l = None → Forall (λ x, p x = false) l.
Proof.
  induction l as [|x l IH]; simpl; [constructor|].
  destruct (p x) eqn:Hx; [done|].
  destruct (findIndex p l); [done|]. intros _. constructor; auto.
Qed.

Lemma findIndex_Some {A} (p : A → bool) (l : list A) (i : nat) :
  findIndex p l = Some i → ∃ x, l !! i = Some x ∧ p x = true.
Proof.
  revert i. induction l as [|x l IH]; intros i; simpl; [done|].
  destruct (p x) eqn:Hx.
  - intros [= <-]. by exists x.
  - destruct (findIndex p l) as [j|]; [|done]. intros [= <-]. by apply IH.
Qed.

Lemma imap_productId (f : nat → CartItem number → CartItem number)
    (l : list (CartItem number)) :
  (∀ i x, productId (f i x) = productId x) →
  productId <$> imap f l = productId <$> l.
Proof.
  revert f. induction l as [|x l IH]; intros f Hf; simpl; [done|].
  rewrite Hf. f_equal. apply IH. intros i y. apply Hf.
Qed.

Lemma cartReducer_NoDup (s : CartState number) (a : CartAction number) :
  not_LOAD_CART a = true →
  NoDup (productId <$> items s) → NoDup (productId <$> items (cartReducer s a)).
Proof.
  intros Ha Hs. destruct a as [payload now | payload | id_ q | | payload];
    simpl; try done.
  - destruct (findIndex _ _) as [i|] eqn:Hfind.
    + destruct (items s !! i) as [existing|]; [|done].
      destruct (js_gt _ _); [done|]. simpl.
      rewrite imap_productId; [done|]. intros j x. by case_bool_decide.
    + destruct (js_gt _ _); [done|]. simpl. rewrite fmap_app. simpl.
      apply NoDup_app. split; [done|]. split; [|apply NoDup_singleton].
      intros x Hx Hnew. apply list_elem_of_singleton in Hnew as ->.
      apply list_elem_of_fmap_1 in Hx as (item & Hid & Hitem).
      apply findIndex_None in Hfind.
      rewrite Forall_forall in Hfind. specialize (Hfind item Hitem).
      simpl in Hfind. apply bool_decide_eq_false in Hfind. congruence.
  - eapply sublist_NoDup; [exact Hs | apply fmap_sublist, sublist_filter].
  - destruct (js_le _ _); simpl.
    + eapply sublist_NoDup; [exact Hs | apply fmap_sublist, sublist_filter].
    + rewrite <- list_fmap_compose.
      erewrite list_fmap_ext; [exact Hs|]. intros i x _. simpl.
      case_bool_decide; [|done]. by destruct (js_gt _ _).
  - constructor.
Qed.

(** X2. Starting from the empty cart, as long as no cart is loaded from
    storage, no two lines of the cart are for the same product: adding a
    product that is already there changes its line instead of adding one. *)
Theorem one_line_per_product (actions : list (CartAction number)) :
  forallb not_LOAD_CART actions = true →
  NoDup (productId <$> items (dispatched actions)).
Proof.
  unfold dispatched.
  assert (Hinit : NoDup (productId <$> items (initialState (number := number))))
    by constructor.
  revert Hinit. generalize (initialState (number := number)) as s.
  induction actions as [|a actions IH]; intros s Hs; simpl; [done|].
  intros [Ha Hrest]%andb_true_iff. apply IH; [|done]. by apply cartReducer_NoDup.
Qed.

(** X3. ADD_ITEM either leaves the cart exactly as it was (the stock limit
    was hit) or leaves a line for the product whose quantity is not above
    the stock the action names. *)
Theorem add_item_within_stock (s : CartState number) (payload : AddItemPayload number)
    (now : N) :
  cartReducer s (ADD_ITEM payload now) = s ∨
  ∃ item, item ∈ items (cartReducer s (ADD_ITEM payload now)) ∧
          productId item = p_productId payload ∧
          js_gt (quantity item) (p_maxStock payload) = false.
Proof.
  simpl. destruct (findIndex _ _) as [i|] eqn:Hfind.
  - apply findIndex_Some in Hfind as (existing & Hi & Hp). rewrite Hi.
    apply bool_decide_eq_true in Hp.
    destruct (js_gt _ _) eqn:Hstock; [by left|]. right.
    exists (with_quantity existing
              (js_add (quantity existing) (quantity_or_one (p_quantity payload)))).
    split; [|by split].
    apply list_elem_of_lookup. exists i. simpl.
    rewrite list_lookup_imap, Hi. simpl. by rewrite bool_decide_eq_true_2.
  - destruct (js_gt _ _) eqn:Hstock; [by left|]. right. eexists.
    split; [apply elem_of_app; right; apply list_elem_of_singleton; reflexivity|].
    simpl. by split.
Qed.

(** X4. UPDATE_QUANTITY with a quantity above zero keeps every line at its
    place: a line with another id is untouched, and a line with the id either
    stays as it was (the quantity is above its stock) or takes the quantity,
    which is then not above its stock. *)
Theorem update_quantity_lines (s : CartState number) (id_ : string) (q : number)
    (i : nat) (item : CartItem number) :
  js_le q js_zero = false →
  items s !! i = Some item →
  ∃ item', items (cartReducer s (UPDATE_QUANTITY id_ q)) !! i = Some item' ∧
    (id item ≠ id_ → item' = item) ∧
    (id item = id_ →
       (item' = item ∧ js_gt q (maxStock item) = true) ∨
       (item' = with_quantity item q ∧ js_gt q (maxStock item) = false)).
Proof.
  intros Hq Hi. simpl. rewrite Hq. simpl. rewrite list_lookup_fmap, Hi. simpl.
  eexists. split; [reflexivity|]. split.
  - intros Hne. by rewrite bool_decide_eq_false_2.
  - intros Heq. rewrite bool_decide_eq_true_2 by done.
    destruct (js_gt q (maxStock item)); [by left | by right].
Qed.

End CartMore.


(** ** The order-total trigger *)

Section TriggerMore.
Implicit Types (d : db) (m : item_mutation) (oid : uuid) (rows : gmap uuid OrderItem.t).

Lemma sum_subtotal_insert oid rows id item :
  rows !! id = None →
  sum_subtotal oid (<[id := item]> rows) = contribution oid item + sum_subtotal oid rows.
Proof.
  intros Hfresh. unfold sum_subtotal.
  rewrite map_fold_insert_L; [|intros; repeat case_bool_decide; lia|done].
  unfold contribution. case_bool_decide; lia.
Qed.

Lemma sum_subtotal_delete oid rows id item :
  rows !! id = Some item →
  sum_subtotal oid rows = contribution oid item + sum_subtotal oid (delete id rows).
Proof.
  intros Hid. unfold sum_subtotal.
  rewrite (map_fold_delete_L _ _ id item rows);
    [|intros; repeat case_bool_decide; lia|done].
  unfold contribution. case_bool_decide; lia.
Qed.

Lemma sum_subtotal_replace oid rows id old new :
  rows !! id = Some old →
  sum_subtotal oid (<[id := new]> rows)
  = contribution oid new - contribution oid old + sum_subtotal oid rows.
Proof.
  intros Hid. rewrite <- insert_delete_eq.
  rewrite sum_subtotal_insert by apply lookup_delete_eq.
  rewrite (sum_subtotal_delete oid rows id old Hid). lia.
Qed.

Lemma update_order_total_frame now NEW OLD d d' :
  update_order_total now NEW OLD d = Ok d' →
  payments d' = payments d ∧ products d' = products d ∧ vendors d' = vendors d ∧
  (∀ oid, orders d !! oid = None → orders d' !! oid = None) ∧
  ∀ oid o, orders d !! oid = Some o →
    ∃ o', orders d' !! oid = Some o' ∧ same_order_but_total o o' ∧
          (coalesce_order_id NEW OLD ≠ Some oid → o' = o).
Proof.
  unfold update_order_total. intros Hrun.
  assert (Hsame : ∀ o, same_order_but_total o o) by (by repeat split).
  destruct (coalesce_order_id NEW OLD) as [oid0|];
    [|injection Hrun as <-; repeat split; eauto].
  destruct (orders d !! oid0) as [o0|] eqn:Ho0;
    [|injection Hrun as <-; repeat split; eauto].
  destruct (Order.delivery_fee o0) as [fee|] eqn:Hfee; [|done].
  destruct (fits_decimal_10_2 _); [|done].
  injection Hrun as <-. simpl. repeat split; try done.
  - intros oid Hnone. rewrite lookup_insert_ne; [done|]. congruence.
  - intros oid o Ho. destruct (decide (oid0 = oid)) as [->|Hne].
    + rewrite lookup_insert_eq. eexists. split; [done|].
      rewrite Ho0 in Ho. injection Ho as <-. split; [by repeat split|congruence].
    + rewrite lookup_insert_ne by done. eauto.
Qed.

Lemma mutate_unfold now m d d' :
  mutate now m d = Ok d' →
  (d' = d ∧ recomputed_order m d = None) ∨
  ∃ rows' NEW OLD,
    update_order_total now NEW OLD (set_order_items d rows') = Ok d' ∧
    coalesce_order_id NEW OLD = recomputed_order m d ∧
    ∀ oid, order_left_behind m d = None → recomputed_order m d ≠ Some oid →
           sum_subtotal oid rows' = sum_subtotal oid (order_items d).
Proof.
  destruct m as [id row | id row | id]; simpl.
  - unfold insert_order_item. destruct (order_items d !! id) eqn:Hid; [done|].
    destruct (order_item_violation row d); [done|]. intros Hrun. right.
    exists (<[id := row]> (order_items d)), (Some row), None.
    split; [done|]. split; [done|]. intros oid _ Hother.
    rewrite sum_subtotal_insert by done. unfold contribution.
    rewrite bool_decide_eq_false_2; [lia|congruence].
  - unfold update_order_item. destruct (order_items d !! id) as [old|] eqn:Hid;
      [|intros [= <-]; by left].
    destruct (order_item_violation row d); [done|]. intros Hrun. right.
    exists (<[id := row]> (order_items d)), (Some row), (Some old).
    split; [done|]. split; [done|]. simpl. intros oid Hstay Hother.
    simpl in Hstay, Hother.
    case_bool_decide as Hsame; [|done].
    rewrite (sum_subtotal_replace oid _ id old row Hid). unfold contribution.
    rewrite !bool_decide_eq_false_2; [lia|congruence..].
  - unfold delete_order_item. destruct (order_items d !! id) as [old|] eqn:Hid;
      [|intros [= <-]; by left].
    intros Hrun. right.
    exists (delete id (order_items d)), None, (Some old).
    split; [done|]. split; [done|]. simpl. intros oid _ Hother.
    simpl in Hother.
    rewrite (sum_subtotal_delete oid (order_items d) id old Hid). unfold contribution.
    rewrite bool_decide_eq_false_2; [lia|congruence].
Qed.

(** X6. Every insert, update or delete of an item that goes through leaves
    the order named by the row it wrote (or deleted) with a total equal to
    the sum of the subtotals of the order's items plus its delivery fee. *)
Theorem item_mutation_recomputes_total now m d d' oid :
  mutate now m d = Ok d' →
  recomputed_order m d = Some oid →
  order_total_holds oid d' = true.
Proof. apply mutate_recomputes_total. Qed.

(** X7. A successful mutation of the items changes, of all order rows, only
    the total and the update time of the one order the trigger recomputes;
    every other order row, and the payments, products and vendors, are as
    before, and no order row appears or disappears. *)
Theorem mutation_touches_one_total now m d d' :
  mutate now m d = Ok d' →
  payments d' = payments d ∧ products d' = products d ∧ vendors d' = vendors d ∧
  (∀ oid, orders d !! oid = None → orders d' !! oid = None) ∧
  ∀ oid o, orders d !! oid = Some o →
    ∃ o', orders d' !! oid = Some o' ∧ same_order_but_total o o' ∧
          (recomputed_order m d ≠ Some oid → o' = o).
Proof.
  intros Hrun.
  apply mutate_unfold in Hrun as [[-> _]|(rows' & NEW & OLD & Hrun & Hoid & _)].
  - repeat split; try done. intros oid o Ho. exists o. by repeat split.
  - apply update_order_total_frame in Hrun as (? & ? & ? & Hnone & Horders).
    rewrite Hoid in Horders. by repeat split.
Qed.

(** X8. No insert, update or delete of an item gets through when the order
    the trigger recomputes, which is the order of the row written or, for a
    DELETE, of the row deleted, has a NULL delivery_fee: the recomputed total
    would be NULL, which the column refuses, and the statement is rolled
    back. (An UPDATE that moves an item out of such an order recomputes the
    other order and is not stopped.) *)
Theorem no_mutation_without_delivery_fee now m d d' oid o :
  mutate now m d = Ok d' →
  recomputed_order m d = Some oid →
  orders d !! oid = Some o →
  is_Some (Order.delivery_fee o).
Proof.
  intros Hrun Hoid Ho.
  apply mutate_unfold in Hrun as [[_ Hnone]|(rows' & NEW & OLD & Hrun & Hco & _)].
  - congruence.
  - revert Hrun. unfold update_order_total. rewrite Hco, Hoid. simpl. rewrite Ho.
    destruct (Order.delivery_fee o); [by eexists|done].
Qed.

(** An item is moved out of order C, which has no delivery fee, into order A:
    only A is recomputed and the statement gets through. *)
Example item_moved_out_of_order_without_fee :
  let move := UpdateItem "i9" (Sample.item "A" "p1" 1 1000) in
  Order.delivery_fee <$> orders Cases.no_fee_database !! "C" = Some None ∧
  OrderItem.order_id <$> order_items Cases.no_fee_database !! "i9" = Some "C" ∧
  recomputed_order move Cases.no_fee_database = Some "A" ∧
  ∃ d', mutate 2%N move Cases.no_fee_database = Ok d' ∧
        OrderItem.order_id <$> order_items d' !! "i9" = Some "A".
Proof.
  split; [by vm_compute|]. split; [by vm_compute|]. split; [by vm_compute|].
  eexists. split; vm_compute; reflexivity.
Qed.

Lemma mutate_keeps_total now m d d' oid :
  mutate now m d = Ok d' →
  order_left_behind m d = None →
  order_total_holds oid d = true →
  order_total_holds oid d' = true.
Proof.
  intros Hrun Hstay Hholds.
  destruct (decide (recomputed_order m d = Some oid)) as [Hre|Hother].
  { by eapply mutate_recomputes_total. }
  apply mutate_unfold in Hrun as [[-> _]|(rows' & NEW & OLD & Hrun & Hco & Hsum)];
    [done|].
  pose proof (update_order_total_items _ _ _ _ _ Hrun) as Hitems.
  apply update_order_total_frame in Hrun as (_ & _ & _ & Hnone & Horders).
  rewrite Hco in Horders. simpl in *.
  unfold order_total_holds in *.
  destruct (orders d !! oid) as [o|] eqn:Ho.
  - destruct (Horders oid o Ho) as (o' & -> & _ & Hsame).
    rewrite (Hsame Hother), Hitems. simpl. by rewrite (Hsum oid Hstay Hother).
  - by rewrite (Hnone oid Ho).
Qed.

(** X9. An order whose total is right stays right through any sequence of
    inserts, updates and deletes of items, of this order or of others, as
    long as no update moves an item from one order to another; statements
    that fail are rolled back and change nothing. *)
Theorem total_kept_without_moves now (ms : list item_mutation) d oid :
  order_total_holds oid d = true →
  keeps_orders now ms d = true →
  order_total_holds oid (mutate_all now ms d) = true.
Proof.
  unfold mutate_all. revert d.
  induction ms as [|m ms IH]; intros d Hholds Hkeeps; simpl in *; [done|].
  apply andb_true_iff in Hkeeps as [Hstay Hrest].
  apply bool_decide_eq_true in Hstay.
  apply IH; [|done].
  destruct (mutate now m d) as [d'|e] eqn:Hrun; simpl; [|done].
  by eapply mutate_keeps_total.
Qed.

End TriggerMore.

(** ** The payment service, further *)

Section ServiceMore.
Context {number : Type} `{JsNumber number}.
Import Supabase PaymentService.
Implicit Types (w : World) (d : db) (id : uuid).

(** X10. Whatever the payment service is asked to do, and however often, a
    payment that exists is never lost and keeps its order, method, amount,
    currency and customer: only its status, transaction id and update time
    can change. *)
Theorem payments_keep_identity (ops : list (operation number)) w id p :
  payments (database w) !! id = Some p →
  ∃ p', payments (database (run_all ops w)) !! id = Some p' ∧
        same_payment_identity p p'.
Proof.
  intros Hp. exists p. rewrite run_all_database. by repeat split.
Qed.

(** X11. Whatever the payment service is asked to do, of an order it
    changes the payment_status and the update time only: total, delivery
    fee, order status, address and method stay, no order appears or is lost,
    and order items, products and vendors are untouched. *)
Theorem service_changes_orders_in_payment_status_only
    (ops : list (operation number)) w :
  order_items (database (run_all ops w)) = order_items (database w) ∧
  products (database (run_all ops w)) = products (database w) ∧
  vendors (database (run_all ops w)) = vendors (database w) ∧
  (∀ oid, orders (database w) !! oid = None →
          orders (database (run_all ops w)) !! oid = None) ∧
  ∀ oid o, orders (database w) !! oid = Some o →
    ∃ o', orders (database (run_all ops w)) !! oid = Some o' ∧
          same_order_but_payment_status o o'.
Proof.
  rewrite run_all_database. repeat split; try done.
  intros oid o Ho. exists o. by repeat split.
Qed.

(** X12. If every payment has one of the statuses pending, completed,
    failed and cancelled, this is still so after any sequence of operations
    of the service. *)
Theorem payment_statuses_stay_known (ops : list (operation number)) w :
  (∀ id p, payments (database w) !! id = Some p → status_known (Payment.status p)) →
  ∀ id p, payments (database (run_all ops w)) !! id = Some p →
          status_known (Payment.status p).
Proof. rewrite run_all_database. auto. Qed.

End ServiceMore.

Section ServiceEdges.
Context {number : Type} `{JsNumber number}.
Import Supabase PaymentService.
Implicit Types (w : World) (d : db) (id : uuid).

(** X13. A request whose method is none of orange_money, afrimoney and
    stripe is turned down without any request to the backend: the world is
    as before and the response says 'Invalid payment method'. *)
Theorem processPayment_unsupported_method (request : PaymentRequest number) w :
  paymentMethod request ∉ payment_method_values →
  (processPayment request w).2 = w ∧
  success (processPayment request w).1 = false ∧
  paymentId (processPayment request w).1 = None ∧
  error (processPayment request w).1 = Some "Invalid payment method".
Proof.
  intros Hmethod. unfold processPayment, payment_method_values in *.
  rewrite !bool_decide_eq_false_2; [done|..]; intros Heq; apply Hmethod;
    rewrite Heq; set_solver.
Qed.

(** X14. A [processPayment] that answers with success false has left the
    database as it was: no payment row, no change to the order. *)
Theorem processPayment_failure_changes_nothing (request : PaymentRequest number) w :
  success (processPayment request w).1 = false →
  database (processPayment request w).2 = database w.
Proof. intros _. apply processPayment_database. Qed.

(** X16. The lookup of the payment row by [checkPaymentStatus] fails for
    every id and every caller, the customer of the order included: the
    SELECT policy of payments reads orders, whose policies cannot be
    expanded. Every payment, a completed one too, is reported as failed, with
    the message 'Failed to check payment status', and nothing is written. *)
Theorem checkPaymentStatus_reports_failed id w :
  lookup_fails id w = true ∧
  (checkPaymentStatus id w).1
  = {| status := Some "failed"; transactionId := None;
       message := "Failed to check payment status"; updatedAt := clock w |} ∧
  database (checkPaymentStatus id w).2 = database w.
Proof.
  rewrite checkPaymentStatus_refused. split; [|done].
  unfold lookup_fails.
  destruct (request_refused (λ _ viewer d, select_payment viewer id d) w) as [e ->];
    [intros; apply select_payment_refused|].
  done.
Qed.

(** X17. [updatePaymentStatus] answers false for every payment id, whatever
    the status asked for and whoever asks, and writes nothing: the UPDATE of
    payments has a WHERE clause, which brings in the SELECT policy, and that
    policy cannot be expanded. The order is never reached. *)
Theorem updatePaymentStatus_writes_nothing id (s : StatusArg) txn w :
  (updatePaymentStatus id s txn w).1 = false ∧
  database (updatePaymentStatus id s txn w).2 = database w ∧
  ∀ ok, (simulatePaymentCompletion id ok w).1 = false ∧
        database (simulatePaymentCompletion id ok w).2 = database w.
Proof.
  rewrite updatePaymentStatus_refused. split; [done|]. split; [done|].
  intros ok. by rewrite simulatePaymentCompletion_refused.
Qed.

(** X18. When [updatePaymentStatus] answers false nothing was written:
    neither the payment nor the order has changed. *)
Theorem updatePaymentStatus_false_changes_nothing id (s : StatusArg) txn w :
  (updatePaymentStatus id s txn w).1 = false →
  database (updatePaymentStatus id s txn w).2 = database w.
Proof. intros _. by rewrite updatePaymentStatus_refused. Qed.

End ServiceEdges.

(** ** The listing, further *)

Section ListingMore.
Import Supabase Products.
Implicit Types (w : World) (d : db) (id : uuid).

(** X20. Whatever happens to its two queries, every row [fetchProducts]
    hands to the page is an active product of the products table, with the
    vendor the viewer may read or none: an inactive product is never listed. *)
Theorem listing_is_of_active_products w pv :
  pv ∈ (fetchProducts w).1 →
  products (database w) !! pv_id pv = Some (pv_product pv) ∧
  Product.is_active (pv_product pv) = Some true ∧
  pv = embed_vendor (session w) (database w) (pv_id pv, pv_product pv).
Proof.
  unfold fetchProducts, mbind, M_bind, request, answered. simpl.
  destruct (faults w) as [|[] [|[] ?]]; simpl; intros Hpv;
    try (by apply not_elem_of_nil in Hpv).
  all: repeat match goal with
       | H : _ ∈ filter _ _ |- _ => apply list_elem_of_filter in H as [_ H]
       end.
  all: apply list_elem_of_fmap_1 in Hpv as ([id product] & -> & Hrow).
  all: apply list_elem_of_filter in Hrow as [Hactive Hrow].
  all: apply elem_of_map_to_list in Hrow; by repeat split.
Qed.

(** X21. When the first query gets through, every active product of a
    verified vendor is listed, for every viewer, signed in or not. *)
Theorem verified_vendor_product_is_listed w id product vendor :
  products (database w) !! id = Some product →
  Product.is_active product = Some true →
  vendors (database w) !! Product.vendor_id product = Some vendor →
  Vendor.verification_status vendor = Some "verified" →
  no_fault_in 1 w = true →
  listed id (fetchProducts w).1 = true.
Proof.
  intros Hproduct Hactive Hvendor Hverified Hfaults.
  apply bool_decide_eq_true.
  unfold fetchProducts, mbind, M_bind.
  rewrite request_unfaulted by done. unfold select_active_products. simpl.
  apply list_elem_of_fmap. exists (embed_vendor (session w) (database w) (id, product)).
  split; [done|].
  assert (Hsome : pv_vendors (embed_vendor (session w) (database w) (id, product)) ≠ None).
  { unfold embed_vendor. simpl. rewrite Hvendor. unfold vendor_visible.
    by rewrite bool_decide_eq_true_2. }
  apply list_elem_of_filter. split; [done|].
  apply list_elem_of_filter. split; [done|].
  apply list_elem_of_fmap_2, list_elem_of_filter. split; [done|].
  by apply elem_of_map_to_list.
Qed.

(** X22. Every product listed through the first query can be put in the
    cart: it comes with its vendor, so [handleAddToCart] has a payload for it,
    with quantity 1, the listed price and the stock as limit. *)
Theorem listed_product_can_be_added w pv unit_name image :
  no_fault_in 1 w = true →
  pv ∈ (fetchProducts w).1 →
  ∃ payload, handleAddToCart pv unit_name image = Some payload ∧
    CartContext.p_productId payload = pv_id pv ∧
    CartContext.p_price payload = Product.price (pv_product pv) ∧
    CartContext.p_quantity payload = Some 1 ∧
    CartContext.p_maxStock payload = Product.stock_quantity (pv_product pv).
Proof.
  intros Hfaults. unfold fetchProducts, mbind, M_bind.
  rewrite request_unfaulted by done. unfold select_active_products. simpl.
  intros [Hsome _]%list_elem_of_filter.
  unfold handleAddToCart. destruct (pv_vendors pv) as [[business_name location]|]; [|done].
  eexists. by repeat split.
Qed.

End ListingMore.

(** X23. A product that is out of stock never enters the cart and its line
    never grows: with stock 0 (and no negative quantity in the cart) the
    reducer turns the addition down and the cart stays as it is. *)
Theorem out_of_stock_is_never_added (s : CartContext.CartState Z)
    (pv : product_with_vendor) unit_name image payload (now : N) :
  handleAddToCart pv unit_name image = Some payload →
  Product.stock_quantity (pv_product pv) = 0 →
  Forall (λ item, 0 ≤ CartContext.quantity item) (CartContext.items s) →
  CartContext.cartReducer s (CartContext.ADD_ITEM payload now) = s.
Proof.
  unfold handleAddToCart. destruct (pv_vendors pv) as [[business_name location]|]; [|done].
  intros [= <-] Hstock Hquantities. simpl. rewrite Hstock.
  destruct (CartContext.findIndex _ _) as [i|] eqn:Hfind.
  - destruct (CartContext.items s !! i) as [existing|] eqn:Hi; [|done].
    rewrite Forall_lookup in Hquantities. specialize (Hquantities i existing Hi).
    simpl in *. rewrite bool_decide_eq_true_2; [done|lia].
  - done.
Qed.

(** ** The checkout summary by vendor *)

Section GroupingFacts.
Context {number : Type} `{JsNumber number}.
Import Grouping.
Implicit Types (groups : list (string * Group number))
               (l : list (CartContext.CartItem number)).

Lemma sum_of_lines_snoc l item :
  sum_of_lines (l ++ [item])
  = js_add (sum_of_lines l)
           (js_mul (CartContext.price item) (CartContext.quantity item)).
Proof.
  rewrite <- !reduce_total_sum. unfold CartContext.reduce_total.
  by rewrite fold_left_app.
Qed.

Lemma push_to_None vendor item groups :
  push_to vendor item groups = None ↔ vendor ∉ groups.*1.
Proof.
  induction groups as [|[v g] groups IH]; simpl.
  - split; [intros _; apply not_elem_of_nil | done].
  - case_bool_decide as Hv.
    + split; [done|]. intros Hnot. exfalso. apply Hnot. subst. apply list_elem_of_here.
    + rewrite not_elem_of_cons. destruct (push_to vendor item groups); simpl.
      * split; [done|]. intros [_ Hnot]. by apply IH in Hnot.
      * split; [|done]. intros _. split; [congruence|]. by apply IH.
Qed.

Lemma push_to_Some vendor item groups groups' :
  NoDup groups.*1 →
  push_to vendor item groups = Some groups' →
  groups'.*1 = groups.*1 ∧
  ∀ v g', (v, g') ∈ groups' →
    (v ≠ vendor ∧ (v, g') ∈ groups) ∨
    (v = vendor ∧ ∃ g, (v, g) ∈ groups ∧ g' = push item g).
Proof.
  revert groups'. induction groups as [|[v0 g0] groups IH]; intros groups'; simpl;
    [done|].
  intros [Hfresh Hnodup]%NoDup_cons. case_bool_decide as Hv.
  - intros [= <-]. split; [done|]. intros v g' [[= -> ->]|Hin]%elem_of_cons.
    + right. split; [done|]. exists g0. split; [apply list_elem_of_here|done].
    + left. split; [|by apply list_elem_of_further].
      intros ->. apply Hfresh. subst v0.
      by apply (list_elem_of_fmap_2' fst _ (vendor, g')).
  - destruct (push_to vendor item groups) as [rest'|] eqn:Hrest; [|done].
    simpl. intros [= <-]. destruct (IH rest' Hnodup eq_refl) as [Hkeys Hin].
    split; [rewrite !fmap_cons; by f_equal|].
    intros v g' [[= -> ->]|Hin']%elem_of_cons.
    + left. split; [done|apply list_elem_of_here].
    + destruct (Hin v g' Hin') as [[? ?]|[-> (g & ? & ->)]].
      * left. split; [done|by apply list_elem_of_further].
      * right. split; [done|]. exists g. split; [by apply list_elem_of_further|done].
Qed.

Lemma add_to_groups_throws groups item :
  add_to_groups groups item = None ↔ CartContext.vendorId item ∈ Object_prototype.
Proof.
  unfold add_to_groups. case_bool_decide; [done|].
  by destruct (push_to _ item groups).
Qed.

Lemma add_to_groups_grouped groups l item groups1 :
  grouped groups l → add_to_groups groups item = Some groups1 →
  grouped groups1 (l ++ [item]).
Proof.
  intros (Hnodup & Hgroups & Hcover). unfold add_to_groups.
  case_bool_decide; [done|].
  destruct (push_to _ item groups) as [groups'|] eqn:Hpush; intros [= <-].
  - destruct (push_to_Some _ _ _ _ Hnodup Hpush) as [Hkeys Hin].
    split; [by rewrite Hkeys|]. split.
    + intros v g' Hg'. rewrite filter_app.
      destruct (Hin v g' Hg') as [[Hne Hold]|[-> (g & Hold & ->)]].
      * destruct (Hgroups v g' Hold) as [Hitems Hsub]. split; [|done].
        rewrite Hitems. rewrite (filter_cons_False _ item []) by done.
        by rewrite filter_nil, app_nil_r.
      * destruct (Hgroups _ g Hold) as [Hitems Hsub]. simpl.
        rewrite (filter_cons_True _ item []) by done.
        rewrite filter_nil, <- Hitems. split; [done|].
        by rewrite sum_of_lines_snoc, Hsub.
    + rewrite Hkeys. intros item' [Hitem'|Heq%list_elem_of_singleton]%elem_of_app;
        [by apply Hcover|]. subst item'.
      destruct (decide (CartContext.vendorId item ∈ groups.*1)) as [|Hnot]; [done|].
      exfalso. apply (proj2 (push_to_None _ item _)) in Hnot. congruence.
  - apply push_to_None in Hpush as Hfresh. unfold grouped. rewrite fmap_app. simpl. split.
    { apply NoDup_app. split; [done|]. split; [|apply NoDup_singleton].
      intros v Hv Heq%list_elem_of_singleton. by subst v. }
    split.
    + intros v g' [Hold|Heq%list_elem_of_singleton]%elem_of_app;
        [|injection Heq as -> ->]; rewrite filter_app.
      * destruct (Hgroups v g' Hold) as [Hitems Hsub]. split; [|done].
        rewrite Hitems. rewrite (filter_cons_False _ item []).
        -- by rewrite filter_nil, app_nil_r.
        -- intros <-. apply Hfresh.
           by apply (list_elem_of_fmap_2' fst _ (CartContext.vendorId item, g')).
      * simpl. rewrite (filter_cons_True _ item []) by done. rewrite filter_nil.
        assert (Hnone : filter (λ i, CartContext.vendorId i = CartContext.vendorId item) l = []).
        { clear Hgroups. induction l as [|x l IH]; [done|].
          rewrite filter_cons_False.
          - apply IH. intros i Hi. apply Hcover. by apply list_elem_of_further.
          - intros Hx. apply Hfresh. rewrite <- Hx. apply Hcover, list_elem_of_here. }
        rewrite Hnone. simpl. by split.
    + intros item' [Hitem'|Heq%list_elem_of_singleton]%elem_of_app; apply elem_of_app.
      * left. by apply Hcover.
      * right. subst item'. apply list_elem_of_here.
Qed.

Lemma reduce_groups_grouped l2 groups l1 :
  grouped groups l1 →
  Forall (λ item, CartContext.vendorId item ∉ Object_prototype) l2 →
  ∃ groups', reduce_groups groups l2 = Some groups' ∧ grouped groups' (l1 ++ l2).
Proof.
  revert groups l1. induction l2 as [|item l2 IH]; intros groups l1 Hg Hnames; simpl.
  - exists groups. by rewrite app_nil_r.
  - apply Forall_cons in Hnames as [Hname Hnames].
    destruct (add_to_groups groups item) as [groups1|] eqn:Hadd;
      [|by apply add_to_groups_throws in Hadd].
    replace (l1 ++ item :: l2) with ((l1 ++ [item]) ++ l2)
      by (by rewrite <- app_assoc).
    apply IH; [|done]. by eapply add_to_groups_grouped.
Qed.

Lemma reduce_groups_throws l groups :
  Exists (λ item, CartContext.vendorId item ∈ Object_prototype) l →
  reduce_groups groups l = None.
Proof.
  intros Hname. revert groups.
  induction Hname as [item l Hname|item l _ IH]; intros groups; simpl.
  - by rewrite (proj2 (add_to_groups_throws groups item) Hname).
  - destruct (add_to_groups groups item); [apply IH|done].
Qed.


End GroupingFacts.

(** ** The payment screen's handlers *)

Section ScreenMore.
Context {number : Type} `{JsNumber number}.
Import Supabase PaymentScreen.
Implicit Types (w : World) (d : db).


Lemma screen_checkPaymentStatus_refused (st : State) id w :
  paymentId st = Some id → id ≠ "" →
  checkPaymentStatus st w
  = ({| processing := processing st; paymentId := paymentId st;
        paymentStatus :=
          Some {| PaymentService.status := Some "failed";
                  PaymentService.transactionId := None;
                  PaymentService.message := "Failed to check payment status";
                  PaymentService.updatedAt := clock w |};
        progress := 0; message := "Failed to check payment status" |},
     [onError "Failed to check payment status"],
     answered w (database w)).
Proof.
  intros Hid Hne. unfold checkPaymentStatus. rewrite Hid.
  destruct id as [|a id']; [done|].
  unfold mbind, M_bind. by rewrite checkPaymentStatus_refused.
Qed.




End ScreenMore.

(** ** The further properties on sample data *)

Section FurtherWitnesses.
Import Supabase.

Local Ltac evaluated := vm_compute; reflexivity.

Lemma one_line_per_product_witness :
  forallb not_LOAD_CART Cases.cart_actions = true ∧
  NoDup (CartContext.productId <$> CartContext.items (CartContext.dispatched Cases.cart_actions)).
Proof.
  assert (H1 : forallb not_LOAD_CART Cases.cart_actions = true) by reflexivity.
  split; [exact H1|]. exact (one_line_per_product Cases.cart_actions H1).
Defined.

Lemma update_quantity_lines_witness :
  let item := Sample.cart_item "p1" "rice" 1000 1 in
  js_le 3 js_zero = false ∧
  CartContext.items Sample.cart !! 0%nat = Some item ∧
  ∃ item',
    CartContext.items
      (CartContext.cartReducer Sample.cart
         (CartContext.UPDATE_QUANTITY "p1-1721847000" 3)) !! 0%nat = Some item' ∧
    (CartContext.id item ≠ "p1-1721847000" → item' = item) ∧
    (CartContext.id item = "p1-1721847000" →
       (item' = item ∧ js_gt 3 (CartContext.maxStock item) = true) ∨
       (item' = CartContext.with_quantity item 3 ∧
        js_gt 3 (CartContext.maxStock item) = false)).
Proof.
  assert (H1 : js_le (3 : Z) js_zero = false) by reflexivity.
  assert (H2 : CartContext.items Sample.cart !! 0%nat
               = Some (Sample.cart_item "p1" "rice" 1000 1)) by reflexivity.
  split; [exact H1|]. split; [exact H2|].
  exact (update_quantity_lines Sample.cart "p1-1721847000" 3 0
           (Sample.cart_item "p1" "rice" 1000 1) H1 H2).
Defined.


Lemma item_mutation_recomputes_total_witness :
  let d' := commit Sample.database (mutate 1 Cases.first_item Sample.database) in
  mutate 1 Cases.first_item Sample.database = Ok d' ∧
  recomputed_order Cases.first_item Sample.database = Some "A" ∧
  order_total_holds "A" d' = true.
Proof.
  assert (H1 : mutate 1 Cases.first_item Sample.database
               = Ok (commit Sample.database (mutate 1 Cases.first_item Sample.database)))
    by evaluated.
  assert (H2 : recomputed_order Cases.first_item Sample.database = Some "A")
    by reflexivity.
  split; [exact H1|]. split; [exact H2|].
  exact (item_mutation_recomputes_total 1 Cases.first_item Sample.database _ "A" H1 H2).
Defined.

Lemma mutation_touches_one_total_witness :
  let d := Sample.database in
  let d' := commit d (mutate 1 Cases.first_item d) in
  mutate 1 Cases.first_item d = Ok d' ∧
  (payments d' = payments d ∧ products d' = products d ∧ vendors d' = vendors d ∧
   (∀ oid, orders d !! oid = None → orders d' !! oid = None) ∧
   ∀ oid o, orders d !! oid = Some o →
     ∃ o', orders d' !! oid = Some o' ∧ same_order_but_total o o' ∧
           (recomputed_order Cases.first_item d ≠ Some oid → o' = o)).
Proof.
  assert (H1 : mutate 1 Cases.first_item Sample.database
               = Ok (commit Sample.database (mutate 1 Cases.first_item Sample.database)))
    by evaluated.
  split; [exact H1|].
  exact (mutation_touches_one_total 1 Cases.first_item Sample.database _ H1).
Defined.

Lemma no_mutation_without_delivery_fee_witness :
  let d := Sample.database in
  mutate 1 Cases.first_item d = Ok (commit d (mutate 1 Cases.first_item d)) ∧
  recomputed_order Cases.first_item d = Some "A" ∧
  orders d !! "A" = Some (Sample.order 500 500) ∧
  is_Some (Order.delivery_fee (Sample.order 500 500)).
Proof.
  assert (H1 : mutate 1 Cases.first_item Sample.database
               = Ok (commit Sample.database (mutate 1 Cases.first_item Sample.database)))
    by evaluated.
  assert (H2 : recomputed_order Cases.first_item Sample.database = Some "A")
    by reflexivity.
  assert (H3 : orders Sample.database !! "A" = Some (Sample.order 500 500)) by evaluated.
  split; [exact H1|]. split; [exact H2|]. split; [exact H3|].
  exact (no_mutation_without_delivery_fee 1 Cases.first_item Sample.database _ "A" _
           H1 H2 H3).
Defined.

Lemma total_kept_without_moves_witness :
  let ms := [Cases.first_item;
             InsertItem "i2" (Sample.item "B" "p2" 2 750);
             UpdateItem "i1" (Sample.item "A" "p1" 3 1000);
             DeleteItem "i2"] in
  order_total_holds "A" Sample.database = true ∧
  keeps_orders 1 ms Sample.database = true ∧
  order_total_holds "A" (mutate_all 1 ms Sample.database) = true.
Proof.
  assert (H1 : order_total_holds "A" Sample.database = true) by evaluated.
  assert (H2 : keeps_orders 1
                 [Cases.first_item; InsertItem "i2" (Sample.item "B" "p2" 2 750);
                  UpdateItem "i1" (Sample.item "A" "p1" 3 1000); DeleteItem "i2"]
                 Sample.database = true) by evaluated.
  split; [exact H1|]. split; [exact H2|].
  exact (total_kept_without_moves 1 _ Sample.database "A" H1 H2).
Defined.

Lemma payments_keep_identity_witness :
  let ops := [PaymentService.SimulatePaymentCompletion "pay-1" false;
              PaymentService.ProcessPayment (Sample.request "A" "orange_money")] in
  payments (database (Sample.paid_world [])) !! "pay-1"
  = Some (Sample.payment "A" "completed") ∧
  ∃ p', payments (database (PaymentService.run_all ops (Sample.paid_world []))) !! "pay-1"
        = Some p' ∧
        same_payment_identity (Sample.payment "A" "completed") p'.
Proof.
  assert (H1 : payments (database (Sample.paid_world [])) !! "pay-1"
               = Some (Sample.payment "A" "completed")) by evaluated.
  split; [exact H1|].
  exact (payments_keep_identity (number := Z) _ (Sample.paid_world []) "pay-1" _ H1).
Defined.

Lemma payment_statuses_stay_known_witness :
  let ops := [PaymentService.ProcessPayment (Sample.request "A" "stripe");
              PaymentService.SimulatePaymentCompletion "0" true;
              PaymentService.SimulatePaymentCompletion "pay-1" false] in
  (∀ id p, payments (database (Sample.paid_world [])) !! id = Some p →
           status_known (Payment.status p)) ∧
  ∀ id p, payments (database (PaymentService.run_all ops (Sample.paid_world []))) !! id
          = Some p →
          status_known (Payment.status p).
Proof.
  assert (H1 : ∀ id p, payments (database (Sample.paid_world [])) !! id = Some p →
                       status_known (Payment.status p)).
  { intros id p Hp. simpl in Hp. apply lookup_singleton_Some in Hp as [_ <-].
    exists "completed". split; [reflexivity|].
    unfold payment_status_values. apply list_elem_of_further, list_elem_of_here. }
  split; [exact H1|].
  exact (payment_statuses_stay_known (number := Z) _ (Sample.paid_world []) H1).
Defined.

Lemma processPayment_unsupported_method_witness :
  let request := Sample.request "A" "paypal" in
  let w := Sample.world [] in
  (PaymentService.paymentMethod request ∉ payment_method_values) ∧
  (PaymentService.processPayment request w).2 = w ∧
  PaymentService.success (PaymentService.processPayment request w).1 = false ∧
  PaymentService.paymentId (PaymentService.processPayment request w).1 = None ∧
  PaymentService.error (PaymentService.processPayment request w).1
  = Some "Invalid payment method".
Proof.
  assert (H1 : PaymentService.paymentMethod (Sample.request "A" "paypal")
               ∉ payment_method_values).
  { unfold payment_method_values. simpl. intros Hin.
    repeat (apply elem_of_cons in Hin as [Heq|Hin]; [discriminate Heq|]).
    by apply elem_of_nil in Hin. }
  split; [exact H1|].
  exact (processPayment_unsupported_method (Sample.request "A" "paypal")
           (Sample.world []) H1).
Defined.

Lemma processPayment_failure_changes_nothing_witness :
  let request := Sample.request "A" "stripe" in
  let w := Sample.world [true] in
  PaymentService.success (PaymentService.processPayment request w).1 = false ∧
  database (PaymentService.processPayment request w).2 = database w.
Proof.
  assert (H1 : PaymentService.success
                 (PaymentService.processPayment (Sample.request "A" "stripe")
                    (Sample.world [true])).1 = false) by evaluated.
  split; [exact H1|].
  exact (processPayment_failure_changes_nothing (Sample.request "A" "stripe")
           (Sample.world [true]) H1).
Defined.

Lemma updatePaymentStatus_false_changes_nothing_witness :
  let w := Sample.paid_world [true] in
  (PaymentService.updatePaymentStatus "pay-1" PaymentService.failed None w).1 = false ∧
  database (PaymentService.updatePaymentStatus "pay-1" PaymentService.failed None w).2
  = database w.
Proof.
  assert (H1 : (PaymentService.updatePaymentStatus "pay-1" PaymentService.failed None
                  (Sample.paid_world [true])).1 = false) by evaluated.
  split; [exact H1|].
  exact (updatePaymentStatus_false_changes_nothing "pay-1" PaymentService.failed None
           (Sample.paid_world [true]) H1).
Defined.

Lemma listing_is_of_active_products_witness :
  let w := Sample.world [] in
  let pv := Cases.listed_rice in
  pv ∈ (Products.fetchProducts w).1 ∧
  products (database w) !! pv_id pv = Some (pv_product pv) ∧
  Product.is_active (pv_product pv) = Some true ∧
  pv = embed_vendor (session w) (database w) (pv_id pv, pv_product pv).
Proof.
  assert (H1 : Cases.listed_rice ∈ (Products.fetchProducts (Sample.world [])).1).
  { vm_compute. repeat first [apply list_elem_of_here | apply list_elem_of_further]. }
  split; [exact H1|].
  exact (listing_is_of_active_products (Sample.world []) Cases.listed_rice H1).
Defined.

Lemma verified_vendor_product_is_listed_witness :
  let w := Sample.world [] in
  let product := Sample.product "v-verified" in
  let vendor := Sample.vendor "farmer-1" "verified" in
  products (database w) !! "p1" = Some product ∧
  Product.is_active product = Some true ∧
  vendors (database w) !! Product.vendor_id product = Some vendor ∧
  Vendor.verification_status vendor = Some "verified" ∧
  no_fault_in 1 w = true ∧
  listed "p1" (Products.fetchProducts w).1 = true.
Proof.
  assert (H1 : products (database (Sample.world [])) !! "p1"
               = Some (Sample.product "v-verified")) by evaluated.
  assert (H2 : Product.is_active (Sample.product "v-verified") = Some true)
    by reflexivity.
  assert (H3 : vendors (database (Sample.world []))
                 !! Product.vendor_id (Sample.product "v-verified")
               = Some (Sample.vendor "farmer-1" "verified")) by evaluated.
  assert (H4 : Vendor.verification_status (Sample.vendor "farmer-1" "verified")
               = Some "verified") by reflexivity.
  assert (H5 : no_fault_in 1 (Sample.world []) = true) by reflexivity.
  split; [exact H1|]. split; [exact H2|]. split; [exact H3|]. split; [exact H4|].
  split; [exact H5|].
  exact (verified_vendor_product_is_listed (Sample.world []) "p1" _ _ H1 H2 H3 H4 H5).
Defined.

Lemma listed_product_can_be_added_witness :
  let w := Sample.world [] in
  let pv := Cases.listed_rice in
  no_fault_in 1 w = true ∧
  pv ∈ (Products.fetchProducts w).1 ∧
  ∃ payload, handleAddToCart pv "kg" None = Some payload ∧
    CartContext.p_productId payload = pv_id pv ∧
    CartContext.p_price payload = Product.price (pv_product pv) ∧
    CartContext.p_quantity payload = Some 1 ∧
    CartContext.p_maxStock payload = Product.stock_quantity (pv_product pv).
Proof.
  assert (H1 : no_fault_in 1 (Sample.world []) = true) by reflexivity.
  assert (H2 : Cases.listed_rice ∈ (Products.fetchProducts (Sample.world [])).1).
  { vm_compute. repeat first [apply list_elem_of_here | apply list_elem_of_further]. }
  split; [exact H1|]. split; [exact H2|].
  exact (listed_product_can_be_added (Sample.world []) Cases.listed_rice "kg" None H1 H2).
Defined.

Lemma out_of_stock_is_never_added_witness :
  let payload := default (Sample.add_payload "p4" "millet" 1200 0 None)
                   (handleAddToCart Cases.sold_out "kg" None) in
  handleAddToCart Cases.sold_out "kg" None = Some payload ∧
  Product.stock_quantity (pv_product Cases.sold_out) = 0 ∧
  Forall (λ item, 0 ≤ CartContext.quantity item) (CartContext.items Sample.cart) ∧
  CartContext.cartReducer Sample.cart (CartContext.ADD_ITEM payload 1721847300) = Sample.cart.
Proof.
  assert (H1 : handleAddToCart Cases.sold_out "kg" None
               = Some (default (Sample.add_payload "p4" "millet" 1200 0 None)
                         (handleAddToCart Cases.sold_out "kg" None))) by reflexivity.
  assert (H2 : Product.stock_quantity (pv_product Cases.sold_out) = 0) by reflexivity.
  assert (H3 : Forall (λ item, 0 ≤ CartContext.quantity item)
                 (CartContext.items Sample.cart)).
  { simpl. repeat constructor; simpl; lia. }
  split; [exact H1|]. split; [exact H2|]. split; [exact H3|].
  exact (out_of_stock_is_never_added Sample.cart Cases.sold_out "kg" None _
           1721847300 H1 H2 H3).
Defined.





End FurtherWitnesses.
